(** * Portfolio content-management backend: [src/index.js]

    A shallow embedding of the Express application of [src/index.js] and the
    properties of its authentication gate, its content handlers and its
    administrator bootstrap.

    What is modelled, and how:
    - the document store is a record of six collections, each a list of
      documents in insertion order (the order [find] and [findOne] observe
      without a sort), with a counter for fresh [_id]s;
    - an [async] handler is a computation in a state-and-exception monad over
      the store: a rejected promise is [Throw], and what was written before
      the rejection stays written;
    - a route is its chain of middlewares, run in order, as Express does;
    - a request body is a record of possibly absent fields; the password of
      a login is any JSON value, since the handler does not check it;
    - [jsonwebtoken], [bcryptjs] and the cast of a path parameter to an
      [ObjectId] are operations of the [Libraries] interface: the
      application's properties are proved for every implementation of it.

    What is left out: loss of the database connection, the [updatedAt] and
    [__v] bookkeeping fields of Mongoose (no handler reads them), logging. *)

From Stdlib Require Import String Ascii List ZArith Bool Arith Lia.
From Stdlib Require Import DecimalString Permutation Sorted.
Import ListNotations.
Open Scope string_scope.

Set Implicit Arguments.

(** ** Results of operations that may throw *)

Inductive result (A : Type) : Type :=
| Ret (a : A)
| Throw (message : string).
Arguments Ret {A} a.
Arguments Throw {A} message.

(** ** JavaScript helpers *)

(** [a || d] on a possibly undefined string: [undefined] and the empty string
    are falsy. *)
Definition or_default (a : option string) (d : string) : string :=
  match a with
  | Some s => if String.eqb s "" then d else s
  | None => d
  end.

(** [s.split(sep)] for a one-character separator. *)
Fixpoint split (sep : ascii) (s : string) : list string :=
  match s with
  | EmptyString => [EmptyString]
  | String c s' =>
      if Ascii.eqb c sep then EmptyString :: split sep s'
      else match split sep s' with
           | [] => [String c EmptyString]
           | h :: t => String c h :: t
           end
  end.

(** [s.startsWith(p)]. *)
Definition startsWith (s p : string) : bool := String.prefix p s.

(** [n + ''] for an integer [n]. *)
Definition toString (n : Z) : string := NilZero.string_of_int (Z.to_int n).

(** ** Identifiers and the external libraries *)

Definition ObjectId := nat.

(** A value of a parsed JSON body, as far as the handlers tell values apart:
    a field may be absent, and a present one need not be a string. *)
Inductive JsValue : Type :=
| JsUndefined
| JsNull
| JsBoolean (b : bool)
| JsNumber (n : Z)
| JsString (s : string)
| JsObject.

(** The payload [jwt.verify] returns; the application reads [id] only. *)
Record Decoded := { id : option ObjectId }.

(** [process.env]. *)
Record Env := {
  JWT_SECRET : option string;
  ADMIN_EMAIL : option string;
  ADMIN_PASSWORD : option string
}.

Class Libraries := {
  (** [jwt.verify(token, secret)] at a given time (ms): the payload, or an
      exception for a malformed, badly signed or expired token. *)
  jwt_verify : option string -> option string -> Z -> result Decoded;
  (** [jwt.sign({ id }, secret, { expiresIn })] at a given time. *)
  jwt_sign : ObjectId -> option string -> string -> Z -> result string;
  (** [bcrypt.compareSync(password, hash)]: the password is whatever the
      body holds under [password]; the library may throw on it. *)
  bcrypt_compareSync : JsValue -> string -> result bool;
  (** [bcrypt.hashSync(password, rounds)]. *)
  bcrypt_hashSync : string -> nat -> string;
  (** Mongoose's cast of a path parameter to an [ObjectId]. *)
  castObjectId : string -> option ObjectId
}.

(** ** Schemas *)

Module AboutSchema.
Record doc := {
  _id : ObjectId;
  title : option string;
  text : option string;
  createdAt : Z
}.
(** [req.body] of [PUT /about]. *)
Record body := { body_title : option string; body_text : option string }.
End AboutSchema.

Module ProjectSchema.
Record doc := {
  _id : ObjectId;
  title : option string;
  description : option string;
  tech : option string;
  link : option string;
  image : option string;
  createdAt : Z
}.
(** The text fields of the multipart form: any field of the schema may be
    sent, [image] included. *)
Record body := {
  body_title : option string;
  body_description : option string;
  body_tech : option string;
  body_link : option string;
  body_image : option string
}.
End ProjectSchema.

Module ExperienceSchema.
Record doc := {
  _id : ObjectId;
  role : option string;
  company : option string;
  duration : option string;
  description : option string;
  createdAt : Z
}.
Record body := {
  body_role : option string;
  body_company : option string;
  body_duration : option string;
  body_description : option string
}.
End ExperienceSchema.

Module SkillSchema.
Record doc := { _id : ObjectId; name : string; createdAt : Z }.
End SkillSchema.

Module SubmissionSchema.
Record doc := {
  _id : ObjectId;
  name : option string;
  email : option string;
  message : option string;
  date : Z;
  createdAt : Z
}.
Record body := {
  body_name : option string;
  body_email : option string;
  body_message : option string;
  body_date : option Z
}.
End SubmissionSchema.

Module AdminSchema.
Record doc := { _id : ObjectId; email : string; password : string }.
End AdminSchema.

(** ** The document store *)

Record Store := {
  abouts : list AboutSchema.doc;
  projects : list ProjectSchema.doc;
  experiences : list ExperienceSchema.doc;
  skills : list SkillSchema.doc;
  submissions : list SubmissionSchema.doc;
  admins : list AdminSchema.doc;
  next_id : ObjectId
}.

Definition set_abouts (l : list AboutSchema.doc) (s : Store) : Store :=
  {| abouts := l; projects := projects s; experiences := experiences s;
     skills := skills s; submissions := submissions s; admins := admins s;
     next_id := next_id s |}.

Definition set_projects (l : list ProjectSchema.doc) (s : Store) : Store :=
  {| abouts := abouts s; projects := l; experiences := experiences s;
     skills := skills s; submissions := submissions s; admins := admins s;
     next_id := next_id s |}.

Definition set_experiences (l : list ExperienceSchema.doc) (s : Store) : Store :=
  {| abouts := abouts s; projects := projects s; experiences := l;
     skills := skills s; submissions := submissions s; admins := admins s;
     next_id := next_id s |}.

Definition set_skills (l : list SkillSchema.doc) (s : Store) : Store :=
  {| abouts := abouts s; projects := projects s; experiences := experiences s;
     skills := l; submissions := submissions s; admins := admins s;
     next_id := next_id s |}.

Definition set_submissions (l : list SubmissionSchema.doc) (s : Store) : Store :=
  {| abouts := abouts s; projects := projects s; experiences := experiences s;
     skills := skills s; submissions := l; admins := admins s;
     next_id := next_id s |}.

Definition set_admins (l : list AdminSchema.doc) (s : Store) : Store :=
  {| abouts := abouts s; projects := projects s; experiences := experiences s;
     skills := skills s; submissions := submissions s; admins := l;
     next_id := next_id s |}.

Definition set_next_id (n : ObjectId) (s : Store) : Store :=
  {| abouts := abouts s; projects := projects s; experiences := experiences s;
     skills := skills s; submissions := submissions s; admins := admins s;
     next_id := n |}.

Definition empty_store : Store :=
  {| abouts := []; projects := []; experiences := []; skills := [];
     submissions := []; admins := []; next_id := 0 |}.

(** ** Store computations: state that survives an exception *)

Definition M (A : Type) : Type := Store -> result A * Store.

Definition ret {A} (a : A) : M A := fun s => (Ret a, s).
Definition throw {A} (e : string) : M A := fun s => (Throw e, s).
Definition bind {A B} (c : M A) (k : A -> M B) : M B :=
  fun s => match c s with
           | (Ret a, s') => k a s'
           | (Throw e, s') => (Throw e, s')
           end.
Definition gets {A} (f : Store -> A) : M A := fun s => (Ret (f s), s).
Definition modify (f : Store -> Store) : M unit := fun s => (Ret tt, f s).

Notation "x <- c ;; k" := (bind c (fun x => k))
  (at level 61, c at next level, right associativity).
Notation "c ;;; k" := (bind c (fun _ => k))
  (at level 61, right associativity).

(** A fresh [_id]. *)
Definition fresh : M ObjectId :=
  fun s => (Ret (next_id s), set_next_id (S (next_id s)) s).

(** [find().sort({ key: -1 })]: stable insertion sort, largest key first. *)
Section Sort.
Variable A : Type.
Variable key : A -> Z.

Fixpoint insert_desc (x : A) (l : list A) : list A :=
  match l with
  | [] => [x]
  | y :: l' => if Z.ltb (key y) (key x) then x :: y :: l'
               else y :: insert_desc x l'
  end.

Definition sort_desc (l : list A) : list A :=
  fold_right insert_desc [] l.
End Sort.

(** Update of the first element satisfying [p]; the updated element, if any. *)
Section UpdateFirst.
Variable A : Type.
Variable p : A -> bool.
Variable f : A -> A.

Fixpoint update_first (l : list A) : option A * list A :=
  match l with
  | [] => (None, [])
  | x :: l' =>
      if p x then (Some (f x), f x :: l')
      else let (r, l'') := update_first l' in (r, x :: l'')
  end.

Fixpoint remove_first (l : list A) : option A * list A :=
  match l with
  | [] => (None, [])
  | x :: l' =>
      if p x then (Some x, l')
      else let (r, l'') := remove_first l' in (r, x :: l'')
  end.
End UpdateFirst.

(** A field of an update document: [$set] when present, left alone when not. *)
Definition patch (new old : option string) : option string :=
  match new with Some v => Some v | None => old end.

(** ** Models: the Mongoose operations the handlers call *)

Module About.
Import AboutSchema.

(** A record as Mongoose loads it: the schema's defaults fill the fields
    the stored record lacks. *)
Definition hydrate (d : doc) : doc :=
  {| _id := _id d;
     title := Some (match title d with Some t => t | None => "About Me" end);
     text := Some (match text d with Some t => t | None => "" end);
     createdAt := createdAt d |}.

(** [About.findOne()]: the first document in natural order, or [null]. *)
Definition findOne : M (option doc) :=
  gets (fun s => option_map hydrate (hd_error (abouts s))).

(** [About.create(body)]: the schema's defaults fill the absent fields. *)
Definition create (now : Z) (b : body) : M doc :=
  i <- fresh ;;
  let d := {| _id := i;
              title := Some (match body_title b with
                             | Some t => t | None => "About Me" end);
              text := Some (match body_text b with
                            | Some t => t | None => "" end);
              createdAt := now |} in
  modify (fun s => set_abouts (abouts s ++ [d]) s) ;;;
  ret d.

(** [about.title = t; about.text = x] on a loaded document. *)
Definition assign (d : doc) (b : body) : doc :=
  {| _id := _id d; title := body_title b; text := body_text b;
     createdAt := createdAt d |}.

(** [about.save()]: writes the document back under its [_id]. *)
Definition save (d : doc) : M doc :=
  modify (fun s =>
    set_abouts (snd (update_first (fun x => Nat.eqb (_id x) (_id d))
                                  (fun _ => d) (abouts s))) s) ;;;
  ret d.
End About.

Module Project.
Import ProjectSchema.

(** The object built by [{ ...req.body }] and the optional
    [projectData.image = ...] assignment. *)
Definition projectData (b : body) (file : option string) : body :=
  match file with
  | Some filename =>
      {| body_title := body_title b; body_description := body_description b;
         body_tech := body_tech b; body_link := body_link b;
         body_image := Some ("/uploads/" ++ filename) |}
  | None => b
  end.

Definition create (now : Z) (b : body) : M doc :=
  i <- fresh ;;
  let d := {| _id := i; title := body_title b;
              description := body_description b; tech := body_tech b;
              link := body_link b; image := body_image b;
              createdAt := now |} in
  modify (fun s => set_projects (projects s ++ [d]) s) ;;;
  ret d.

Definition apply_update (b : body) (d : doc) : doc :=
  {| _id := _id d;
     title := patch (body_title b) (title d);
     description := patch (body_description b) (description d);
     tech := patch (body_tech b) (tech d);
     link := patch (body_link b) (link d);
     image := patch (body_image b) (image d);
     createdAt := createdAt d |}.

(** [Project.find().sort({ createdAt: -1 })]. *)
Definition find_sorted : M (list doc) :=
  gets (fun s => sort_desc createdAt (projects s)).

Section WithLibraries.
Context `{Libraries}.

(** [Project.findByIdAndUpdate(id, data, { new: true })]: a cast error
    for a malformed id, [null] when no document matches, the updated
    document otherwise. *)
Definition findByIdAndUpdate (i : string) (b : body) : M (option doc) :=
  match castObjectId i with
  | None => throw "Cast to ObjectId failed"
  | Some oid => fun s =>
      let (r, l) := update_first (fun d => Nat.eqb (_id d) oid)
                                 (apply_update b) (projects s) in
      (Ret r, set_projects l s)
  end.

(** [Project.findByIdAndDelete(id)]. *)
Definition findByIdAndDelete (i : string) : M (option doc) :=
  match castObjectId i with
  | None => throw "Cast to ObjectId failed"
  | Some oid => fun s =>
      let (r, l) := remove_first (fun d => Nat.eqb (_id d) oid)
                                 (projects s) in
      (Ret r, set_projects l s)
  end.
End WithLibraries.
End Project.

Module Experience.
Import ExperienceSchema.

Definition create (now : Z) (b : body) : M doc :=
  i <- fresh ;;
  let d := {| _id := i; role := body_role b; company := body_company b;
              duration := body_duration b;
              description := body_description b; createdAt := now |} in
  modify (fun s => set_experiences (experiences s ++ [d]) s) ;;;
  ret d.

Definition apply_update (b : body) (d : doc) : doc :=
  {| _id := _id d;
     role := patch (body_role b) (role d);
     company := patch (body_company b) (company d);
     duration := patch (body_duration b) (duration d);
     description := patch (body_description b) (description d);
     createdAt := createdAt d |}.

Definition find_sorted : M (list doc) :=
  gets (fun s => sort_desc createdAt (experiences s)).

Section WithLibraries.
Context `{Libraries}.

Definition findByIdAndUpdate (i : string) (b : body) : M (option doc) :=
  match castObjectId i with
  | None => throw "Cast to ObjectId failed"
  | Some oid => fun s =>
      let (r, l) := update_first (fun d => Nat.eqb (_id d) oid)
                                 (apply_update b) (experiences s) in
      (Ret r, set_experiences l s)
  end.

Definition findByIdAndDelete (i : string) : M (option doc) :=
  match castObjectId i with
  | None => throw "Cast to ObjectId failed"
  | Some oid => fun s =>
      let (r, l) := remove_first (fun d => Nat.eqb (_id d) oid)
                                 (experiences s) in
      (Ret r, set_experiences l s)
  end.
End WithLibraries.
End Experience.

Module Skill.
Import SkillSchema.

(** [Skill.deleteMany({})]. *)
Definition deleteMany : M unit := modify (set_skills []).

(** One insertion under the unique index on [name]. *)
Definition insertOne (now : Z) (n : string) : M doc :=
  fun s =>
    if existsb (fun d => String.eqb (name d) n) (skills s)
    then (Throw "E11000 duplicate key error", s)
    else
      let d := {| _id := next_id s; name := n; createdAt := now |} in
      (Ret d, set_next_id (S (next_id s)) (set_skills (skills s ++ [d]) s)).

(** [Skill.insertMany(docs)], ordered: the documents before the first
    rejected one are written. *)
Fixpoint insertMany (now : Z) (names : list string) : M (list doc) :=
  match names with
  | [] => ret []
  | n :: rest =>
      d <- insertOne now n ;;
      ds <- insertMany now rest ;;
      ret (d :: ds)
  end.

(** [Skill.find()]. *)
Definition find : M (list doc) := gets skills.
End Skill.

Module Submission.
Import SubmissionSchema.

(** The range of a JavaScript [Date], in milliseconds. *)
Definition valid_date (t : Z) : bool := (Z.abs t <=? 8640000000000000)%Z.

(** [Submission.create(body)]: a [date] the body gives is cast to a [Date],
    which fails outside the range; an absent one defaults to [Date.now]. *)
Definition create (now : Z) (b : body) : M doc :=
  t <- match body_date b with
       | Some t => if valid_date t then ret t
                   else throw "Submission validation failed: date"
       | None => ret now
       end ;;
  i <- fresh ;;
  let d := {| _id := i; name := body_name b; email := body_email b;
              message := body_message b; date := t; createdAt := now |} in
  modify (fun s => set_submissions (submissions s ++ [d]) s) ;;;
  ret d.

(** [Submission.find().sort({ date: -1 })]. *)
Definition find_sorted : M (list doc) :=
  gets (fun s => sort_desc date (submissions s)).
End Submission.

Module Admin.
Import AdminSchema.

(** [Admin.findOne({ email })]. *)
Definition findOne (e : string) : M (option doc) :=
  gets (fun s => List.find (fun d => String.eqb (email d) e) (admins s)).

(** [Admin.countDocuments()]. *)
Definition countDocuments : M nat := gets (fun s => length (admins s)).

(** [Admin.create({ email, password })]: both fields are required, and
    [email] carries a unique index. *)
Definition create (e p : string) : M doc :=
  if String.eqb e "" || String.eqb p ""
  then throw "Admin validation failed"
  else fun s =>
    if existsb (fun d => String.eqb (email d) e) (admins s)
    then (Throw "E11000 duplicate key error", s)
    else
      let d := {| _id := next_id s; email := e; password := p |} in
      (Ret d, set_next_id (S (next_id s)) (set_admins (admins s ++ [d]) s)).
End Admin.

(** ** Requests and responses *)

Module Login.
(** [req.body] of [POST /login], destructured unchecked: [password] is any
    value, [email] the string the lookup is made with. *)
Record body := { email : string; password : JsValue }.
End Login.

(** The routes of [apiRouter], each with what the request carries: path
    parameter, body, and for the two upload routes the original name of the
    [image] file part, if there is one. *)
Inductive Endpoint : Type :=
| GET_content
| POST_login (b : Login.body)
| PUT_about (b : AboutSchema.body)
| PUT_skills (b : list string)
| POST_projects (b : ProjectSchema.body) (image : option string)
| PUT_projects (i : string) (b : ProjectSchema.body) (image : option string)
| DELETE_projects (i : string)
| POST_experience (b : ExperienceSchema.body)
| PUT_experience (i : string) (b : ExperienceSchema.body)
| DELETE_experience (i : string)
| POST_contact_submit (b : SubmissionSchema.body)
| GET_contact_submissions.

Record Request := {
  authorization : option string;   (* req.headers.authorization *)
  endpoint : Endpoint
}.

(** What a middleware adds to [req]. *)
Record Ctx := {
  adminId : option ObjectId;       (* req.adminId *)
  file : option string             (* req.file.filename *)
}.

Definition ctx0 : Ctx := {| adminId := None; file := None |}.

Inductive Json : Type :=
| JMessage (message : string)
| JError (message error : string)
| JToken (token : string)
| JContent (about : AboutSchema.doc + string * string)
           (projects : list ProjectSchema.doc)
           (experience : list ExperienceSchema.doc)
           (skills : list string)
| JAbout (d : AboutSchema.doc)
| JNames (l : list string)
| JProject (d : option ProjectSchema.doc)          (* [None] is [null] *)
| JExperience (d : option ExperienceSchema.doc)    (* [None] is [null] *)
| JSubmissions (l : list SubmissionSchema.doc)
| NoRoute.

Record Response := { status : nat; json : Json }.

(** [res.json(v)] and [res.status(n).json(v)]. *)
Definition res_json (v : Json) : Response := {| status := 200; json := v |}.
Definition res_status_json (n : nat) (v : Json) : Response :=
  {| status := n; json := v |}.

(** The store and the upload directory. *)
Record World := { db : Store; uploads : list string }.

Inductive Step : Type :=
| Respond (r : Response) (w : World)
| Next (c : Ctx) (w : World).

Definition Middleware := Ctx -> World -> Step.

(** Express runs the middlewares of a route in order until one responds. *)
Fixpoint run_chain (ms : list Middleware) (c : Ctx) (w : World)
  : Response * World :=
  match ms with
  | [] => ({| status := 404; json := NoRoute |}, w)
  | m :: ms' =>
      match m c w with
      | Respond r w' => (r, w')
      | Next c' w' => run_chain ms' c' w'
      end
  end.

(** [try { ... } catch (err) { ... err.message ... }] around a handler body. *)
Definition try_catch (c : M Response) (h : string -> Response)
  : Store -> Response * Store :=
  fun s => match c s with
           | (Ret r, s') => (r, s')
           | (Throw e, s') => (h e, s')
           end.

(** A route handler as the last middleware of its chain. *)
Definition handler (h : Ctx -> Store -> Response * Store) : Middleware :=
  fun c w => let (r, s') := h c (db w) in
             Respond r {| db := s'; uploads := uploads w |}.

Definition lift {A} (r : result A) : M A :=
  match r with Ret a => ret a | Throw e => throw e end.

Definition MissingToken : string := "Unauthorized: Missing Token".
Definition InvalidOrExpiredToken : string :=
  "Unauthorized: Invalid or Expired Token".

Section App.
Context `{Libraries}.
Variable env : Env.
(** [Date.now()] while the request is served. *)
Variable now : Z.

(** *** Auth middleware *)

Definition authenticate (req : Request) : Middleware :=
  fun c w =>
    match authorization req with
    | None => Respond (res_status_json 401 (JMessage MissingToken)) w
    | Some authHeader =>
        if String.eqb authHeader "" || negb (startsWith authHeader "Bearer ")
        then Respond (res_status_json 401 (JMessage MissingToken)) w
        else
          let token := nth_error (split " "%char authHeader) 1 in
          match jwt_verify token (JWT_SECRET env) now with
          | Ret decoded =>
              Next {| adminId := id decoded; file := file c |} w
          | Throw _ =>
              Respond (res_status_json 401 (JMessage InvalidOrExpiredToken)) w
          end
    end.

(** *** [upload.single('image')]: the file is stored under
    [Date.now() + '-' + file.originalname] before the handler runs. *)
Definition upload_single (image : option string) : Middleware :=
  fun c w =>
    match image with
    | None => Next c w
    | Some originalname =>
        let filename := toString now ++ "-" ++ originalname in
        Next {| adminId := adminId c; file := Some filename |}
             {| db := db w; uploads := filename :: uploads w |}
    end.

(** *** Route handlers *)

Definition get_content : Store -> Response * Store :=
  try_catch
    (found <- About.findOne ;;
     let about := match found with
                  | Some d => inl d
                  | None => inr ("About Me", "")
                  end in
     projects <- Project.find_sorted ;;
     experience <- Experience.find_sorted ;;
     skillsData <- Skill.find ;;
     let skills := map SkillSchema.name skillsData in
     ret (res_json (JContent about projects experience skills)))
    (fun e => res_status_json 500 (JError "Error fetching content" e)).

Definition post_login (b : Login.body) : Store -> Response * Store :=
  try_catch
    (admin <- Admin.findOne (Login.email b) ;;
     match admin with
     | Some a =>
         ok <- lift (bcrypt_compareSync (Login.password b)
                                        (AdminSchema.password a)) ;;
         if ok : bool then
           token <- lift (jwt_sign (AdminSchema._id a) (JWT_SECRET env)
                                   "1d" now) ;;
           ret (res_json (JToken token))
         else ret (res_status_json 401 (JMessage "Invalid credentials"))
     | None => ret (res_status_json 401 (JMessage "Invalid credentials"))
     end)
    (fun e => res_status_json 500 (JError "Login error" e)).

Definition put_about (b : AboutSchema.body) : Store -> Response * Store :=
  try_catch
    (found <- About.findOne ;;
     about <- match found with
              | Some d => About.save (About.assign d b)
              | None => About.create now b
              end ;;
     ret (res_json (JAbout about)))
    (fun e => res_status_json 500 (JError "Update error" e)).

Definition put_skills (b : list string) : Store -> Response * Store :=
  try_catch
    (Skill.deleteMany ;;;
     newSkills <- Skill.insertMany now b ;;
     ret (res_json (JNames (map SkillSchema.name newSkills))))
    (fun e => res_status_json 500 (JError "Skills update error" e)).

Definition post_projects (b : ProjectSchema.body) (c : Ctx)
  : Store -> Response * Store :=
  try_catch
    (newProject <- Project.create now (Project.projectData b (file c)) ;;
     ret (res_json (JProject (Some newProject))))
    (fun e => res_status_json 500 (JError "Project add error" e)).

Definition put_projects (i : string) (b : ProjectSchema.body) (c : Ctx)
  : Store -> Response * Store :=
  try_catch
    (updatedProject <-
       Project.findByIdAndUpdate i (Project.projectData b (file c)) ;;
     ret (res_json (JProject updatedProject)))
    (fun e => res_status_json 500 (JError "Project update error" e)).

Definition delete_projects (i : string) : Store -> Response * Store :=
  try_catch
    (Project.findByIdAndDelete i ;;;
     ret (res_json (JMessage "Deleted")))
    (fun e => res_status_json 500 (JError "Delete error" e)).

Definition post_experience (b : ExperienceSchema.body)
  : Store -> Response * Store :=
  try_catch
    (newExp <- Experience.create now b ;;
     ret (res_json (JExperience (Some newExp))))
    (fun e => res_status_json 500 (JError "Experience add error" e)).

Definition put_experience (i : string) (b : ExperienceSchema.body)
  : Store -> Response * Store :=
  try_catch
    (updatedExp <- Experience.findByIdAndUpdate i b ;;
     ret (res_json (JExperience updatedExp)))
    (fun e => res_status_json 500 (JError "Experience update error" e)).

Definition delete_experience (i : string) : Store -> Response * Store :=
  try_catch
    (Experience.findByIdAndDelete i ;;;
     ret (res_json (JMessage "Deleted")))
    (fun e => res_status_json 500 (JError "Delete error" e)).

Definition post_contact_submit (b : SubmissionSchema.body)
  : Store -> Response * Store :=
  try_catch
    (Submission.create now b ;;;
     ret (res_json (JMessage "Message sent successfully")))
    (fun e => res_status_json 500 (JError "Submission error" e)).

Definition get_contact_submissions : Store -> Response * Store :=
  try_catch
    (submissions <- Submission.find_sorted ;;
     ret (res_json (JSubmissions submissions)))
    (fun e => res_status_json 500 (JError "Fetch error" e)).

(** *** The router: the middleware chain registered for each route *)

Definition apiRouter (req : Request) : list Middleware :=
  match endpoint req with
  | GET_content => [handler (fun _ => get_content)]
  | POST_login b => [handler (fun _ => post_login b)]
  | PUT_about b => [authenticate req; handler (fun _ => put_about b)]
  | PUT_skills b => [authenticate req; handler (fun _ => put_skills b)]
  | POST_projects b image =>
      [authenticate req; upload_single image; handler (post_projects b)]
  | PUT_projects i b image =>
      [authenticate req; upload_single image; handler (put_projects i b)]
  | DELETE_projects i =>
      [authenticate req; handler (fun _ => delete_projects i)]
  | POST_experience b =>
      [authenticate req; handler (fun _ => post_experience b)]
  | PUT_experience i b =>
      [authenticate req; handler (fun _ => put_experience i b)]
  | DELETE_experience i =>
      [authenticate req; handler (fun _ => delete_experience i)]
  | POST_contact_submit b => [handler (fun _ => post_contact_submit b)]
  | GET_contact_submissions =>
      [authenticate req; handler (fun _ => get_contact_submissions)]
  end.

(** One request served against a world. *)
Definition serve (req : Request) (w : World) : Response * World :=
  run_chain (apiRouter req) ctx0 w.

(** *** Initial seed *)

Definition seedAdmin : M unit :=
  count <- Admin.countDocuments ;;
  if Nat.eqb count 0 then
    let email := or_default (ADMIN_EMAIL env) "admin@gmail.com" in
    let password :=
      bcrypt_hashSync (or_default (ADMIN_PASSWORD env) "admin123") 10 in
    Admin.create email password ;;;
    ret tt
  else ret tt.
End App.

(** ** Vocabulary of the properties *)

(** The routes registered behind the bearer gate. *)
Definition protected (e : Endpoint) : bool :=
  match e with
  | PUT_about _ | PUT_skills _
  | POST_projects _ _ | PUT_projects _ _ _ | DELETE_projects _
  | POST_experience _ | PUT_experience _ _ | DELETE_experience _
  | GET_contact_submissions => true
  | GET_content | POST_login _ | POST_contact_submit _ => false
  end.

(** The [PUT /about] route. *)
Definition is_PUT_about (e : Endpoint) : bool :=
  match e with PUT_about _ => true | _ => false end.

(** The path recorded for a file uploaded at time [now]. *)
Definition stored_path (now : Z) (originalname : string) : string :=
  "/uploads/" ++ (toString now ++ "-" ++ originalname).

(** The token of a header [Bearer <token>]: what follows the prefix, up to
    the next space. *)
Fixpoint first_word (s : string) : string :=
  match s with
  | EmptyString => EmptyString
  | String c s' =>
      if Ascii.eqb c " "%char then EmptyString else String c (first_word s')
  end.

(** A header in the format [Bearer <token>]. *)
Definition bearer_format (h : option string) : Prop :=
  exists rest, h = Some ("Bearer " ++ rest).

Section Vocabulary.
Context `{Libraries}.
Variable env : Env.

(** Session validation fails at time [now]: no header in the bearer
    format, or a token that [jwt.verify] rejects. *)
Definition session_fails (now : Z) (req : Request) : Prop :=
  ~ bearer_format (authorization req) \/
  exists rest e,
    authorization req = Some ("Bearer " ++ rest) /\
    jwt_verify (Some (first_word rest)) (JWT_SECRET env) now = Throw e.

(** Session validation passes and the token decodes to [d]. *)
Definition session_passes (now : Z) (req : Request) (d : Decoded) : Prop :=
  exists rest,
    authorization req = Some ("Bearer " ++ rest) /\
    jwt_verify (Some (first_word rest)) (JWT_SECRET env) now = Ret d.

(** Requests served one after the other, each at its own time. *)
Fixpoint serve_all (reqs : list (Z * Request)) (w : World) : World :=
  match reqs with
  | [] => w
  | (now, req) :: reqs' => serve_all reqs' (snd (serve env now req w))
  end.
End Vocabulary.

(** The routes by the collection they write. *)
Definition is_PUT_skills (e : Endpoint) : bool :=
  match e with PUT_skills _ => true | _ => false end.

Definition is_project_route (e : Endpoint) : bool :=
  match e with
  | POST_projects _ _ | PUT_projects _ _ _ | DELETE_projects _ => true
  | _ => false
  end.

Definition is_experience_route (e : Endpoint) : bool :=
  match e with
  | POST_experience _ | PUT_experience _ _ | DELETE_experience _ => true
  | _ => false
  end.

Definition is_POST_contact_submit (e : Endpoint) : bool :=
  match e with POST_contact_submit _ => true | _ => false end.

(** The routes whose handlers only read. *)
Definition reads_only (e : Endpoint) : bool :=
  match e with
  | GET_content | POST_login _ | GET_contact_submissions => true
  | _ => false
  end.

(** A listing with the largest key first. *)
Definition newest_first {A : Type} (key : A -> Z) (l : list A) : Prop :=
  StronglySorted (fun a b => (key b <= key a)%Z) l.

(** A string without a space. *)
Fixpoint no_space (s : string) : bool :=
  match s with
  | EmptyString => true
  | String c s' => negb (Ascii.eqb c " "%char) && no_space s'
  end.

(** The statuses the application answers with. *)
Definition answered (r : Response) : Prop :=
  (status r = 200 \/ status r = 401 \/ status r = 500) /\ json r <> NoRoute.

(** The name under which [upload.single] stores a file received at [now]. *)
Definition stored_name (now : Z) (originalname : string) : string :=
  toString now ++ "-" ++ originalname.

(** What a handler may have written: never the administrators, and a
    content collection only when its flag is set. *)
Definition writes_within (a p x k m : bool) (s s' : Store) : Prop :=
  admins s' = admins s /\
  (a = false -> abouts s' = abouts s) /\
  (p = false -> projects s' = projects s) /\
  (x = false -> experiences s' = experiences s) /\
  (k = false -> skills s' = skills s) /\
  (m = false -> submissions s' = submissions s).

(** The image file part a route hands to [upload.single]. *)
Definition route_upload (e : Endpoint) : option string :=
  match e with
  | POST_projects _ image | PUT_projects _ _ image => image
  | _ => None
  end.

Section Dispatch.
Context `{Libraries}.
Variable env : Env.
Variable now : Z.

(** The handler at the end of a route's chain. *)
Definition route_handler (e : Endpoint) (c : Ctx)
  : Store -> Response * Store :=
  match e with
  | GET_content => get_content
  | POST_login b => post_login env now b
  | PUT_about b => put_about now b
  | PUT_skills b => put_skills now b
  | POST_projects b _ => post_projects now b c
  | PUT_projects i b _ => put_projects i b c
  | DELETE_projects i => delete_projects i
  | POST_experience b => post_experience now b
  | PUT_experience i b => put_experience i b
  | DELETE_experience i => delete_experience i
  | POST_contact_submit b => post_contact_submit now b
  | GET_contact_submissions => get_contact_submissions
  end.
End Dispatch.

(** ** A small implementation of the libraries, to run the model on *)

Module Sample.
(** Tokens are [<id>.<expiry>.<secret>] with decimal fields, the secret
    standing for the signature; password hashes are the reversed password
    behind a marker. *)
Definition parse_nat (s : string) : option nat :=
  if String.eqb s "" then None
  else option_map Nat.of_uint (NilEmpty.uint_of_string s).

Definition parse_time (s : string) : option Z :=
  if String.eqb s "" then None
  else option_map Z.of_uint (NilEmpty.uint_of_string s).

Definition print_nat (n : nat) : string :=
  NilZero.string_of_uint (Nat.to_uint n).

Definition verify (token secret : option string) (now : Z)
  : result Decoded :=
  match token, secret with
  | Some t, Some k =>
      match split "."%char t with
      | [i; e; sig] =>
          match parse_nat i, parse_time e with
          | Some i', Some e' =>
              if negb (String.eqb sig k) then Throw "invalid signature"
              else if Z.leb e' now then Throw "jwt expired"
              else Ret {| id := Some i' |}
          | _, _ => Throw "jwt malformed"
          end
      | _ => Throw "jwt malformed"
      end
  | None, _ => Throw "jwt must be provided"
  | _, None => Throw "secret or public key must be provided"
  end.

Definition sign (i : ObjectId) (secret : option string) (expiresIn : string)
                (now : Z) : result string :=
  match secret with
  | Some k =>
      Ret (print_nat i ++ "." ++ toString (now + 86400000)
                       ++ "." ++ k)
  | None => Throw "secretOrPrivateKey must have a value"
  end.

Fixpoint rev_string (s : string) : string :=
  match s with
  | EmptyString => EmptyString
  | String c s' => rev_string s' ++ String c EmptyString
  end.

Definition hash (p : string) (rounds : nat) : string :=
  "$2a$" ++ print_nat rounds ++ "$" ++ rev_string p.

Definition typeof (v : JsValue) : string :=
  match v with
  | JsUndefined => "undefined"
  | JsNull | JsObject => "object"
  | JsBoolean _ => "boolean"
  | JsNumber _ => "number"
  | JsString _ => "string"
  end.

Definition compare (p : JsValue) (h : string) : result bool :=
  match p with
  | JsString s => Ret (String.eqb h (hash s 10))
  | _ => Throw ("Illegal arguments: " ++ typeof p ++ ", string")
  end.

Definition libraries : Libraries :=
  {| jwt_verify := verify; jwt_sign := sign;
     bcrypt_compareSync := compare; bcrypt_hashSync := hash;
     castObjectId := parse_nat |}.

Definition env : Env :=
  {| JWT_SECRET := Some "s3cret"; ADMIN_EMAIL := None;
     ADMIN_PASSWORD := Some "hunter2" |}.

(** A token for administrator 0, valid until time 5000. *)
Definition bearer : option string := Some "Bearer 0.5000.s3cret".

Definition fresh_world : World := {| db := empty_store; uploads := [] |}.

Definition run := @serve libraries env.

(** The store after the bootstrap has run on an empty database. *)
Definition seeded : World :=
  {| db := snd (@seedAdmin libraries env empty_store); uploads := [] |}.

Definition request (e : Endpoint) : Request :=
  {| authorization := bearer; endpoint := e |}.

Definition about_body (t x : string) : AboutSchema.body :=
  {| AboutSchema.body_title := Some t; AboutSchema.body_text := Some x |}.

Definition project_body (t : string) (img : option string)
  : ProjectSchema.body :=
  {| ProjectSchema.body_title := Some t;
     ProjectSchema.body_description := None;
     ProjectSchema.body_tech := None;
     ProjectSchema.body_link := None;
     ProjectSchema.body_image := img |}.

Definition experience_body (r : string) : ExperienceSchema.body :=
  {| ExperienceSchema.body_role := Some r;
     ExperienceSchema.body_company := None;
     ExperienceSchema.body_duration := None;
     ExperienceSchema.body_description := None |}.

(** A project created at time 7 with an uploaded image. *)
Definition project0 : ProjectSchema.doc :=
  {| ProjectSchema._id := 0;
     ProjectSchema.title := Some "Compiler";
     ProjectSchema.description := Some "A small compiler";
     ProjectSchema.tech := None;
     ProjectSchema.link := None;
     ProjectSchema.image := Some "/uploads/7-old.png";
     ProjectSchema.createdAt := 7 |}.

(** An About record created at time 3. *)
Definition about0 : AboutSchema.doc :=
  {| AboutSchema._id := 0; AboutSchema.title := Some "About Me";
     AboutSchema.text := Some "Hello"; AboutSchema.createdAt := 3 |}.

Definition with_about : World :=
  {| db := set_next_id 1 (set_abouts [about0] empty_store); uploads := [] |}.

Definition with_project : World :=
  {| db := set_next_id 1 (set_projects [project0] empty_store);
     uploads := ["7-old.png"] |}.

(** A store with one record in each content collection and the seeded
    administrator. *)
Definition skill0 : SkillSchema.doc :=
  {| SkillSchema._id := 2; SkillSchema.name := "Cobol";
     SkillSchema.createdAt := 4 |}.

Definition experience0 : ExperienceSchema.doc :=
  {| ExperienceSchema._id := 3;
     ExperienceSchema.role := Some "Engineer";
     ExperienceSchema.company := Some "Acme";
     ExperienceSchema.duration := None;
     ExperienceSchema.description := Some "Backend";
     ExperienceSchema.createdAt := 5 |}.

Definition message0 : SubmissionSchema.doc :=
  {| SubmissionSchema._id := 4;
     SubmissionSchema.name := Some "Ada";
     SubmissionSchema.email := Some "ada@example.org";
     SubmissionSchema.message := Some "Hello";
     SubmissionSchema.date := 6;
     SubmissionSchema.createdAt := 6 |}.

Definition admin0 : AdminSchema.doc :=
  {| AdminSchema._id := 1; AdminSchema.email := "admin@gmail.com";
     AdminSchema.password := "$2a$10$2retnuh" |}.

Definition populated : World :=
  {| db := {| abouts := [about0]; projects := [project0];
              experiences := [experience0]; skills := [skill0];
              submissions := [message0]; admins := [admin0];
              next_id := 5 |};
     uploads := ["7-old.png"] |}.

(** A store whose About record has lost its title, with two projects and
    two experience entries, the older ones first. *)
Definition untitled : AboutSchema.doc :=
  {| AboutSchema._id := 0; AboutSchema.title := None;
     AboutSchema.text := Some "x"; AboutSchema.createdAt := 3 |}.

Definition project1 : ProjectSchema.doc :=
  {| ProjectSchema._id := 6;
     ProjectSchema.title := Some "Parser";
     ProjectSchema.description := None;
     ProjectSchema.tech := Some "OCaml";
     ProjectSchema.link := None;
     ProjectSchema.image := None;
     ProjectSchema.createdAt := 9 |}.

Definition experience1 : ExperienceSchema.doc :=
  {| ExperienceSchema._id := 7;
     ExperienceSchema.role := Some "Lead";
     ExperienceSchema.company := Some "Initech";
     ExperienceSchema.duration := Some "2y";
     ExperienceSchema.description := None;
     ExperienceSchema.createdAt := 8 |}.

Definition varied : World :=
  {| db := {| abouts := [untitled]; projects := [project0; project1];
              experiences := [experience0; experience1];
              skills := [skill0]; submissions := [message0];
              admins := [admin0]; next_id := 8 |};
     uploads := ["7-old.png"] |}.

Definition anonymous (e : Endpoint) : Request :=
  {| authorization := None; endpoint := e |}.

Definition submission_body (n m : string) : SubmissionSchema.body :=
  {| SubmissionSchema.body_name := Some n;
     SubmissionSchema.body_email := None;
     SubmissionSchema.body_message := Some m;
     SubmissionSchema.body_date := None |}.
End Sample.

(** * Properties *)

Unset Implicit Arguments.

(** ** Strings *)

Lemma prefix_iff (p s : string) :
  String.prefix p s = true <-> exists r, s = p ++ r.
Proof.
  revert s; induction p as [|a p IH]; intros [|b s]; simpl.
  - split; [intros _; now exists "" | reflexivity].
  - split; [intros _; now exists (String b s) | reflexivity].
  - split; [discriminate | intros [r Hr]; discriminate].
  - destruct (ascii_dec a b) as [->|Hab].
    + split.
      * intros Hp. apply IH in Hp as [r ->]. now exists r.
      * intros [r Hr]. apply IH. exists r. congruence.
    + split; [discriminate | intros [r Hr]; congruence].
Qed.

Lemma split_hd (s : string) :
  hd_error (split " "%char s) = Some (first_word s).
Proof.
  induction s as [|c s IH]; simpl; [reflexivity|].
  destruct (Ascii.eqb c " "%char); [reflexivity|].
  destruct (split " "%char s) as [|h t]; simpl in *; congruence.
Qed.

Lemma split_Bearer (rest : string) :
  nth_error (split " "%char ("Bearer " ++ rest)) 1 = Some (first_word rest).
Proof.
  change (split " "%char ("Bearer " ++ rest))
    with ("Bearer" :: split " "%char rest).
  apply split_hd.
Qed.

Lemma prefix_uploads (filename : string) :
  startsWith ("/uploads/" ++ filename) "/uploads/" = true.
Proof. apply prefix_iff. now exists filename. Qed.

(** ** The monad *)

Lemma set_projects_same (s : Store) : set_projects (projects s) s = s.
Proof. now destruct s. Qed.

Lemma set_experiences_same (s : Store) : set_experiences (experiences s) s = s.
Proof. now destruct s. Qed.

Lemma world_eta (w : World) : {| db := db w; uploads := uploads w |} = w.
Proof. now destruct w. Qed.

(** ** The gate *)

Section Gate.
Context `{Libraries}.
Variable env : Env.
Variable now : Z.

Lemma authenticate_no_bearer req c w :
  ~ bearer_format (authorization req) ->
  authenticate env now req c w
  = Respond (res_status_json 401 (JMessage MissingToken)) w.
Proof.
  intros Hno. unfold authenticate.
  destruct (authorization req) as [h|]; [|reflexivity].
  destruct (String.eqb h ""); [reflexivity|]. simpl.
  destruct (startsWith h "Bearer ") eqn:Hp; [|reflexivity].
  exfalso. apply Hno. apply prefix_iff in Hp as [r ->]. now exists r.
Qed.

Lemma authenticate_bearer req rest c w :
  authorization req = Some ("Bearer " ++ rest) ->
  authenticate env now req c w
  = match jwt_verify (Some (first_word rest)) (JWT_SECRET env) now with
    | Ret decoded => Next {| adminId := id decoded; file := file c |} w
    | Throw _ =>
        Respond (res_status_json 401 (JMessage InvalidOrExpiredToken)) w
    end.
Proof.
  intros Hh. unfold authenticate. rewrite Hh.
  replace (startsWith ("Bearer " ++ rest) "Bearer ") with true
    by (symmetry; apply prefix_iff; now exists rest).
  rewrite split_Bearer. reflexivity.
Qed.

Lemma bearer_format_dec (h : option string) :
  bearer_format h \/ ~ bearer_format h.
Proof.
  destruct h as [h|].
  - destruct (String.prefix "Bearer " h) eqn:Hp.
    + left. apply prefix_iff in Hp as [r ->]. now exists r.
    + right. intros [r Hr].
      assert (String.prefix "Bearer " h = true)
        by (apply prefix_iff; exists r; congruence).
      congruence.
  - right. intros [r Hr]. discriminate.
Qed.

Lemma session_fails_rejects req c w :
  session_fails env now req ->
  exists r, authenticate env now req c w = Respond r w /\ status r = 401.
Proof.
  intros [Hno | (rest & e & Hh & Hv)].
  - rewrite authenticate_no_bearer by assumption. eauto.
  - rewrite (authenticate_bearer _ _ _ _ Hh), Hv. eauto.
Qed.

Lemma session_passes_next req d c w :
  session_passes env now req d ->
  authenticate env now req c w
  = Next {| adminId := id d; file := file c |} w.
Proof.
  intros (rest & Hh & Hv).
  now rewrite (authenticate_bearer _ _ _ _ Hh), Hv.
Qed.

Lemma authenticate_keeps_world req c w :
  match authenticate env now req c w with
  | Respond _ w' | Next _ w' => w' = w
  end.
Proof.
  destruct (bearer_format_dec (authorization req)) as [[rest Hh]|Hno].
  - rewrite (authenticate_bearer _ _ _ _ Hh). now destruct jwt_verify.
  - now rewrite authenticate_no_bearer.
Qed.

(** C3. The gate answers "Missing Token" exactly when the header is not of
    the form [Bearer <token>], answers "Invalid or Expired Token" exactly
    when it is and [jwt.verify] rejects the token, and otherwise hands the
    [id] of the decoded token to the next handler; the two messages
    differ. *)
Theorem authenticate_outcomes req c w :
  (authenticate env now req c w
     = Respond (res_status_json 401 (JMessage MissingToken)) w
   <-> ~ bearer_format (authorization req)) /\
  (authenticate env now req c w
     = Respond (res_status_json 401 (JMessage InvalidOrExpiredToken)) w
   <-> exists rest e,
         authorization req = Some ("Bearer " ++ rest) /\
         jwt_verify (Some (first_word rest)) (JWT_SECRET env) now
         = Throw e) /\
  (forall c' w',
      authenticate env now req c w = Next c' w'
      <-> exists d, session_passes env now req d /\
                    c' = {| adminId := id d; file := file c |} /\ w' = w) /\
  MissingToken <> InvalidOrExpiredToken.
Proof.
  repeat split; try discriminate.
  - intros Ha [rest Hh].
    rewrite (authenticate_bearer _ _ _ _ Hh) in Ha.
    destruct jwt_verify; discriminate.
  - apply authenticate_no_bearer.
  - intros Ha.
    destruct (bearer_format_dec (authorization req)) as [[rest Hh]|Hno].
    + rewrite (authenticate_bearer _ _ _ _ Hh) in Ha.
      destruct jwt_verify as [d|e] eqn:Hv; [discriminate|].
      now exists rest, e.
    + rewrite authenticate_no_bearer in Ha by assumption. discriminate.
  - intros (rest & e & Hh & Hv).
    now rewrite (authenticate_bearer _ _ _ _ Hh), Hv.
  - intros Ha.
    destruct (bearer_format_dec (authorization req)) as [[rest Hh]|Hno].
    + rewrite (authenticate_bearer _ _ _ _ Hh) in Ha.
      destruct jwt_verify as [d|e] eqn:Hv; [|discriminate].
      injection Ha as <- <-. exists d. repeat split. now exists rest.
    + rewrite authenticate_no_bearer in Ha by assumption. discriminate.
  - intros (d & Hp & -> & ->). now apply session_passes_next.
Qed.

(** C1. On a protected route, a request whose session validation fails is
    answered 401 and leaves the store and the upload directory as they
    were. *)
Theorem protected_rejects_before_mutation req w :
  protected (endpoint req) = true ->
  session_fails env now req ->
  exists r, serve env now req w = (r, w) /\ status r = 401.
Proof.
  intros Hp Hf.
  destruct (session_fails_rejects req ctx0 w Hf) as (r & Ha & Hs).
  exists r. split; [|exact Hs].
  unfold serve, apiRouter.
  destruct (endpoint req); try discriminate Hp;
    cbn [run_chain]; now rewrite Ha.
Qed.

(** C10. The gate's decision, and the administrator identifier it passes
    on, are the same whatever the store holds; the gate writes nothing. *)
Theorem authenticate_ignores_store req c w1 w2 :
  match authenticate env now req c w1, authenticate env now req c w2 with
  | Respond r1 w1', Respond r2 w2' => r1 = r2 /\ w1' = w1 /\ w2' = w2
  | Next c1 w1', Next c2 w2' => c1 = c2 /\ w1' = w1 /\ w2' = w2
  | _, _ => False
  end.
Proof.
  destruct (bearer_format_dec (authorization req)) as [[rest Hh]|Hno].
  - rewrite !(authenticate_bearer _ _ _ _ Hh).
    destruct jwt_verify; auto.
  - rewrite !authenticate_no_bearer by assumption. auto.
Qed.
End Gate.

(** ** Lists *)

Section FirstMatch.
Context {A : Type} (p : A -> bool) (f : A -> A).

Lemma update_first_none (l : list A) :
  (forall x, In x l -> p x = false) -> update_first p f l = (None, l).
Proof.
  induction l as [|x l IH]; intros Hl; simpl; [reflexivity|].
  rewrite (Hl x) by now left.
  rewrite IH; [reflexivity|]. intros y Hy. apply Hl. now right.
Qed.

Lemma remove_first_none (l : list A) :
  (forall x, In x l -> p x = false) -> remove_first p l = (None, l).
Proof.
  induction l as [|x l IH]; intros Hl; simpl; [reflexivity|].
  rewrite (Hl x) by now left.
  rewrite IH; [reflexivity|]. intros y Hy. apply Hl. now right.
Qed.

Lemma update_first_some (l1 l2 : list A) (x : A) :
  (forall y, In y l1 -> p y = false) -> p x = true ->
  update_first p f (l1 ++ x :: l2)%list
  = (Some (f x), (l1 ++ f x :: l2)%list).
Proof.
  intros Hl Hx. induction l1 as [|y l1 IH]; simpl.
  - now rewrite Hx.
  - rewrite (Hl y) by now left.
    rewrite IH; [reflexivity|]. intros z Hz. apply Hl. now right.
Qed.
End FirstMatch.

(** ** Handlers behind the gate *)

Section Handlers.
Context `{Libraries}.
Variable env : Env.

(** A request that passes the gate reaches its handler with the store it
    found. *)
Ltac pass_gate Hp He :=
  unfold serve, apiRouter; rewrite He; cbn [run_chain];
  rewrite (session_passes_next _ _ _ _ _ _ Hp); cbn [run_chain].

Lemma serve_login now h b w :
  serve env now {| authorization := h; endpoint := POST_login b |} w
  = (fst (post_login env now b (db w)),
     {| db := snd (post_login env now b (db w)); uploads := uploads w |}).
Proof.
  unfold serve, apiRouter, handler; cbn.
  now destruct (post_login env now b (db w)).
Qed.

Lemma post_login_unknown now b s :
  fst (Admin.findOne (Login.email b) s) = Ret None ->
  post_login env now b s
  = (res_status_json 401 (JMessage "Invalid credentials"), s).
Proof.
  unfold post_login, try_catch, bind, Admin.findOne, gets; cbn.
  intros Hf. injection Hf as ->. reflexivity.
Qed.

Lemma post_login_mismatch now b a s :
  fst (Admin.findOne (Login.email b) s) = Ret (Some a) ->
  bcrypt_compareSync (Login.password b) (AdminSchema.password a)
  = Ret false ->
  post_login env now b s
  = (res_status_json 401 (JMessage "Invalid credentials"), s).
Proof.
  unfold post_login, try_catch, bind, Admin.findOne, gets; cbn.
  intros Hf Hc. injection Hf as ->. rewrite Hc. reflexivity.
Qed.

Lemma post_login_throw now b a e s :
  fst (Admin.findOne (Login.email b) s) = Ret (Some a) ->
  bcrypt_compareSync (Login.password b) (AdminSchema.password a)
  = Throw e ->
  post_login env now b s
  = (res_status_json 500 (JError "Login error" e), s).
Proof.
  unfold post_login, try_catch, bind, Admin.findOne, gets; cbn.
  intros Hf Hc. injection Hf as ->. rewrite Hc. reflexivity.
Qed.

(** C2, where the code departs from it. The comparison runs only when the
    email matches an administrator, inside the [try]: when it throws, as it
    does on a body without a string [password], the known email is answered
    500 "Login error" and the unknown one 401 "Invalid credentials", so the
    two answers tell the cases apart. *)
Theorem login_throw_reveals_known_email
    now1 now2 h1 h2 (b1 b2 : Login.body) (a : AdminSchema.doc) e
    (w : World) :
  fst (Admin.findOne (Login.email b1) (db w)) = Ret None ->
  fst (Admin.findOne (Login.email b2) (db w)) = Ret (Some a) ->
  bcrypt_compareSync (Login.password b2) (AdminSchema.password a)
  = Throw e ->
  serve env now1 {| authorization := h1; endpoint := POST_login b1 |} w
  = (res_status_json 401 (JMessage "Invalid credentials"), w) /\
  serve env now2 {| authorization := h2; endpoint := POST_login b2 |} w
  = (res_status_json 500 (JError "Login error" e), w) /\
  fst (serve env now1 {| authorization := h1; endpoint := POST_login b1 |} w)
  <> fst (serve env now2
            {| authorization := h2; endpoint := POST_login b2 |} w).
Proof.
  intros H1 H2 Hc. rewrite !serve_login.
  rewrite (post_login_unknown _ _ _ H1).
  rewrite (post_login_throw _ _ _ _ _ H2 Hc).
  cbn [fst snd]. rewrite world_eta. repeat split. discriminate.
Qed.

(** X19. When the comparison returns [false], a login whose email matches
    an administrator receives the answer of a login whose email matches
    none, 401 "Invalid credentials", and neither changes anything. *)
Theorem login_failures_indistinguishable
    now1 now2 h1 h2 (b1 b2 : Login.body) (a : AdminSchema.doc) (w : World) :
  fst (Admin.findOne (Login.email b1) (db w)) = Ret None ->
  fst (Admin.findOne (Login.email b2) (db w)) = Ret (Some a) ->
  bcrypt_compareSync (Login.password b2) (AdminSchema.password a)
  = Ret false ->
  serve env now1 {| authorization := h1; endpoint := POST_login b1 |} w
  = (res_status_json 401 (JMessage "Invalid credentials"), w) /\
  serve env now2 {| authorization := h2; endpoint := POST_login b2 |} w
  = (res_status_json 401 (JMessage "Invalid credentials"), w).
Proof.
  intros H1 H2 Hc. rewrite !serve_login.
  rewrite (post_login_unknown _ _ _ H1).
  rewrite (post_login_mismatch _ _ _ _ H2 Hc).
  cbn [fst snd]. now rewrite world_eta.
Qed.

(** *** Deletes and updates whose target does not exist *)

Lemma Project_delete_absent i oid s :
  castObjectId i = Some oid ->
  (forall p, In p (projects s) -> ProjectSchema._id p <> oid) ->
  delete_projects i s = (res_json (JMessage "Deleted"), s).
Proof.
  intros Hc Hn.
  unfold delete_projects, try_catch, bind, Project.findByIdAndDelete.
  rewrite Hc, remove_first_none, set_projects_same; [reflexivity|].
  intros p Hp. apply Nat.eqb_neq. now apply Hn.
Qed.

Lemma Experience_delete_absent i oid s :
  castObjectId i = Some oid ->
  (forall x, In x (experiences s) -> ExperienceSchema._id x <> oid) ->
  delete_experience i s = (res_json (JMessage "Deleted"), s).
Proof.
  intros Hc Hn.
  unfold delete_experience, try_catch, bind, Experience.findByIdAndDelete.
  rewrite Hc, remove_first_none, set_experiences_same; [reflexivity|].
  intros p Hp. apply Nat.eqb_neq. now apply Hn.
Qed.

Lemma Project_update_absent i oid b c s :
  castObjectId i = Some oid ->
  (forall p, In p (projects s) -> ProjectSchema._id p <> oid) ->
  put_projects i b c s = (res_json (JProject None), s).
Proof.
  intros Hc Hn.
  unfold put_projects, try_catch, bind, Project.findByIdAndUpdate.
  rewrite Hc, update_first_none, set_projects_same; [reflexivity|].
  intros p Hp. apply Nat.eqb_neq. now apply Hn.
Qed.

Lemma Experience_update_absent i oid b s :
  castObjectId i = Some oid ->
  (forall x, In x (experiences s) -> ExperienceSchema._id x <> oid) ->
  put_experience i b s = (res_json (JExperience None), s).
Proof.
  intros Hc Hn.
  unfold put_experience, try_catch, bind, Experience.findByIdAndUpdate.
  rewrite Hc, update_first_none, set_experiences_same; [reflexivity|].
  intros p Hp. apply Nat.eqb_neq. now apply Hn.
Qed.

Lemma delete_uncastable i s :
  castObjectId i = None ->
  exists e,
    delete_projects i s = (res_status_json 500 (JError "Delete error" e), s) /\
    delete_experience i s
    = (res_status_json 500 (JError "Delete error" e), s).
Proof.
  intros Hc. exists "Cast to ObjectId failed".
  unfold delete_projects, delete_experience, try_catch, bind,
    Project.findByIdAndDelete, Experience.findByIdAndDelete.
  now rewrite Hc.
Qed.

(** C7, as the code has it. Behind the gate, deleting a project or an
    experience entry by a path parameter that casts to an identifier no
    record carries answers 200 "Deleted" and changes nothing; by a path
    parameter that cannot be cast, it answers 500 "Delete error", and
    changes nothing either. *)
Theorem delete_absent_or_uncastable now req d i w :
  session_passes env now req d ->
  (forall oid,
      castObjectId i = Some oid ->
      (endpoint req = DELETE_projects i ->
       (forall p, In p (projects (db w)) -> ProjectSchema._id p <> oid) ->
       serve env now req w = (res_json (JMessage "Deleted"), w)) /\
      (endpoint req = DELETE_experience i ->
       (forall x, In x (experiences (db w)) ->
                  ExperienceSchema._id x <> oid) ->
       serve env now req w = (res_json (JMessage "Deleted"), w))) /\
  (castObjectId i = None ->
   endpoint req = DELETE_projects i \/ endpoint req = DELETE_experience i ->
   exists e,
     serve env now req w
     = (res_status_json 500 (JError "Delete error" e), w)).
Proof.
  intros Hp. split.
  - intros oid Hc. split; intros He Hn; pass_gate Hp He; unfold handler.
    + rewrite (Project_delete_absent _ _ _ Hc Hn). now rewrite world_eta.
    + rewrite (Experience_delete_absent _ _ _ Hc Hn). now rewrite world_eta.
  - intros Hc He.
    destruct (delete_uncastable i (db w) Hc) as (e & Hdp & Hdx).
    exists e. destruct He as [He | He]; pass_gate Hp He; unfold handler.
    + rewrite Hdp. now rewrite world_eta.
    + rewrite Hdx. now rewrite world_eta.
Qed.

(** C8, as the code has it. Behind the gate, updating a project or an
    experience entry by a well-formed identifier that no record carries
    answers 200 with a [null] body and leaves the store as it was; the
    generic 500 answer is that of an identifier that cannot be cast. *)
Theorem update_absent_answers_null now req d i w :
  session_passes env now req d ->
  (forall oid b image,
      castObjectId i = Some oid ->
      endpoint req = PUT_projects i b image ->
      (forall p, In p (projects (db w)) -> ProjectSchema._id p <> oid) ->
      fst (serve env now req w) = res_json (JProject None) /\
      db (snd (serve env now req w)) = db w) /\
  (forall oid b,
      castObjectId i = Some oid ->
      endpoint req = PUT_experience i b ->
      (forall x, In x (experiences (db w)) ->
                 ExperienceSchema._id x <> oid) ->
      serve env now req w = (res_json (JExperience None), w)) /\
  (castObjectId i = None ->
   (forall b image,
       endpoint req = PUT_projects i b image ->
       status (fst (serve env now req w)) = 500) /\
   (forall b,
       endpoint req = PUT_experience i b ->
       status (fst (serve env now req w)) = 500)).
Proof.
  intros Hp. split; [|split; [|intros Hnone; split]].
  - intros oid b image Hc He Hn. pass_gate Hp He.
    destruct image; cbn; unfold handler;
      now rewrite (Project_update_absent _ _ _ _ _ Hc Hn).
  - intros oid b Hc He Hn. pass_gate Hp He. unfold handler.
    rewrite (Experience_update_absent _ _ _ _ Hc Hn). now rewrite world_eta.
  - intros b image He. pass_gate Hp He.
    destruct image; cbn; unfold handler, put_projects,
      try_catch, bind, Project.findByIdAndUpdate; now rewrite Hnone.
  - intros b He. pass_gate Hp He. unfold handler, put_experience,
      try_catch, bind, Experience.findByIdAndUpdate; now rewrite Hnone.
Qed.
End Handlers.

(** ** About: the upsert keeps a single record *)

Section AboutUpsert.
Context `{Libraries}.
Variable env : Env.

Lemma put_about_existing now b s d rest :
  abouts s = d :: rest ->
  put_about now b s
  = (res_json (JAbout (About.assign d b)),
     set_abouts (About.assign d b :: rest) s).
Proof.
  intros Ha.
  unfold put_about, try_catch, bind, About.findOne, gets, About.save,
    modify, ret.
  rewrite Ha. cbn. rewrite Ha. cbn. now rewrite Nat.eqb_refl.
Qed.

Lemma put_about_first now b s :
  abouts s = [] ->
  let d := {| AboutSchema._id := next_id s;
              AboutSchema.title :=
                Some (match AboutSchema.body_title b with
                      | Some t => t | None => "About Me" end);
              AboutSchema.text :=
                Some (match AboutSchema.body_text b with
                      | Some t => t | None => "" end);
              AboutSchema.createdAt := now |} in
  put_about now b s
  = (res_json (JAbout d),
     set_abouts [d] (set_next_id (S (next_id s)) s)).
Proof.
  intros Ha.
  unfold put_about, try_catch, bind, About.findOne, gets, About.create,
    fresh, modify, ret.
  rewrite Ha. cbn. rewrite Ha. reflexivity.
Qed.

Lemma put_about_count now b s :
  length (abouts s) <= 1 ->
  length (abouts (snd (put_about now b s))) = 1.
Proof.
  destruct (abouts s) as [|d rest] eqn:Ha; intros Hl.
  - now rewrite put_about_first.
  - rewrite (put_about_existing _ _ _ _ _ Ha). cbn in *. lia.
Qed.

Lemma serve_about_count now req w :
  is_PUT_about (endpoint req) = true ->
  length (abouts (db w)) <= 1 ->
  length (abouts (db (snd (serve env now req w)))) <= 1.
Proof.
  intros He Hl. unfold serve, apiRouter.
  destruct (endpoint req); try discriminate He. cbn [run_chain].
  destruct (authenticate env now req ctx0 w) as [r w'|c w'] eqn:Ha.
  - pose proof (authenticate_keeps_world env now req ctx0 w) as Hi.
    rewrite Ha in Hi. now subst w'.
  - pose proof (authenticate_keeps_world env now req ctx0 w) as Hi.
    rewrite Ha in Hi. subst w'.
    cbn [run_chain]. unfold handler.
    pose proof (put_about_count now b (db w) Hl) as Hc.
    destruct (put_about now b (db w)); cbn in *. lia.
Qed.
Lemma serve_about_passes now req b d w :
  endpoint req = PUT_about b ->
  session_passes env now req d ->
  serve env now req w
  = (fst (put_about now b (db w)),
     {| db := snd (put_about now b (db w)); uploads := uploads w |}).
Proof.
  intros He Hp. unfold serve, apiRouter. rewrite He. cbn [run_chain].
  rewrite (session_passes_next _ _ _ _ _ _ Hp). cbn [run_chain].
  unfold handler. now destruct (put_about now b (db w)).
Qed.

Lemma serve_all_about_count reqs : forall w,
  Forall (fun nr => is_PUT_about (endpoint (snd nr)) = true) reqs ->
  length (abouts (db w)) <= 1 ->
  length (abouts (db (serve_all env reqs w))) <= 1.
Proof.
  induction reqs as [|[now req] reqs IH]; intros w Hall Hl; cbn.
  - exact Hl.
  - inversion Hall as [|x l Hreq Hrest]; subst.
    apply IH; [exact Hrest|]. now apply serve_about_count.
Qed.

(** C4. Behind the gate, [PUT /about] rewrites the first About record in
    place when there is one: its title and text become those of the body,
    its [_id] and [createdAt] stay, and the other records are untouched;
    it creates one record from the body when there is none; a run of
    [PUT /about] requests, accepted or not, started with at most one About
    record ends with at most one, and two accepted requests on an empty
    collection leave exactly one. *)
Theorem update_about_upserts :
  (forall now req b d w d0 rest,
      endpoint req = PUT_about b ->
      session_passes env now req d ->
      abouts (db w) = d0 :: rest ->
      exists d1,
        serve env now req w
        = (res_json (JAbout d1),
           {| db := set_abouts (d1 :: rest) (db w);
              uploads := uploads w |}) /\
        AboutSchema.title d1 = AboutSchema.body_title b /\
        AboutSchema.text d1 = AboutSchema.body_text b /\
        AboutSchema._id d1 = AboutSchema._id d0 /\
        AboutSchema.createdAt d1 = AboutSchema.createdAt d0) /\
  (forall now req b d w,
      endpoint req = PUT_about b ->
      session_passes env now req d ->
      abouts (db w) = [] ->
      exists d1,
        fst (serve env now req w) = res_json (JAbout d1) /\
        abouts (db (snd (serve env now req w))) = [d1] /\
        AboutSchema.title d1
        = Some (match AboutSchema.body_title b with
                | Some t => t | None => "About Me" end) /\
        AboutSchema.text d1
        = Some (match AboutSchema.body_text b with
                | Some t => t | None => "" end)) /\
  (forall reqs w,
      Forall (fun nr => is_PUT_about (endpoint (snd nr)) = true) reqs ->
      length (abouts (db w)) <= 1 ->
      length (abouts (db (serve_all env reqs w))) <= 1) /\
  (forall now1 now2 req1 req2 b1 b2 d1 d2 w,
      endpoint req1 = PUT_about b1 ->
      endpoint req2 = PUT_about b2 ->
      session_passes env now1 req1 d1 ->
      session_passes env now2 req2 d2 ->
      abouts (db w) = [] ->
      length (abouts (db (serve_all env [(now1, req1); (now2, req2)] w)))
      = 1).
Proof.
  split; [|split; [|split]].
  - intros now req b d w d0 rest He Hp Ha.
    rewrite (serve_about_passes _ _ _ _ _ He Hp).
    rewrite (put_about_existing _ _ _ _ _ Ha).
    eexists. split; [reflexivity|]. repeat split.
  - intros now req b d w He Hp Ha.
    rewrite (serve_about_passes _ _ _ _ _ He Hp).
    rewrite (put_about_first now b (db w) Ha). cbn.
    eexists; repeat split.
  - intros reqs w. apply serve_all_about_count.
  - intros now1 now2 req1 req2 b1 b2 d1 d2 w He1 He2 Hp1 Hp2 Ha. cbn.
    rewrite (serve_about_passes _ _ _ _ _ He1 Hp1). cbn [snd].
    rewrite (serve_about_passes _ _ _ _ _ He2 Hp2). cbn [snd db].
    apply put_about_count. rewrite put_about_count; [lia|].
    rewrite Ha. cbn. lia.
Qed.
End AboutUpsert.

(** ** Skills: replace, then read *)

Lemma existsb_name_false (n : string) (l : list SkillSchema.doc) :
  ~ In n (map SkillSchema.name l) ->
  existsb (fun d => String.eqb (SkillSchema.name d) n) l = false.
Proof.
  induction l as [|x l IH]; intros Hn; cbn; [reflexivity|].
  cbn in Hn. destruct (String.eqb_spec (SkillSchema.name x) n) as [He|He].
  - exfalso. apply Hn. now left.
  - apply IH. intros Hin. apply Hn. now right.
Qed.

Lemma insertMany_distinct (now : Z) (names : list string) : forall s,
  NoDup names ->
  (forall n, In n names -> ~ In n (map SkillSchema.name (skills s))) ->
  exists docs s',
    Skill.insertMany now names s = (Ret docs, s') /\
    map SkillSchema.name docs = names /\
    skills s' = (skills s ++ docs)%list /\
    Forall (fun x => SkillSchema.createdAt x = now /\
                     next_id s <= SkillSchema._id x) docs /\
    next_id s <= next_id s' /\
    abouts s' = abouts s /\ projects s' = projects s /\
    experiences s' = experiences s /\ submissions s' = submissions s /\
    admins s' = admins s.
Proof.
  induction names as [|n names IH]; intros s Hnd Hfresh.
  - exists [], s. cbn. rewrite app_nil_r. repeat split; auto.
  - inversion Hnd as [|n' l Hnotin Hnd']; subst.
    set (d := {| SkillSchema._id := next_id s; SkillSchema.name := n;
                 SkillSchema.createdAt := now |}).
    set (s1 := set_next_id (S (next_id s))
                 (set_skills (skills s ++ [d]) s)).
    destruct (IH s1 Hnd') as
      (docs & s' & Hrun & Hnames & Hskills & Hdocs & Hnext & Hrest).
    { intros m Hm. cbn. rewrite map_app, in_app_iff. cbn.
      intros [Hold | [Heq | []]].
      - apply (Hfresh m); [now right | exact Hold].
      - subst m. contradiction. }
    exists (d :: docs), s'.
    cbn [Skill.insertMany]. unfold bind at 1. unfold Skill.insertOne.
    rewrite existsb_name_false by (apply Hfresh; now left).
    fold d. fold s1. unfold bind at 1. rewrite Hrun. unfold ret.
    split; [reflexivity|]. cbn [map]. rewrite Hnames.
    split; [reflexivity|].
    split; [rewrite Hskills; cbn; now rewrite <- app_assoc|].
    split.
    { constructor; [cbn; split; [reflexivity | lia]|].
      eapply Forall_impl; [|exact Hdocs]. cbn. intros x [Hc Hi]. split; auto.
      lia. }
    split; [cbn in Hnext; lia|]. exact Hrest.
Qed.

Section Skills.
Context `{Libraries}.
Variable env : Env.

Lemma get_content_reads s :
  get_content s
  = (res_json
       (JContent (match hd_error (abouts s) with
                  | Some d => inl (About.hydrate d)
                  | None => inr ("About Me", "")
                  end)
                 (sort_desc ProjectSchema.createdAt (projects s))
                 (sort_desc ExperienceSchema.createdAt (experiences s))
                 (map SkillSchema.name (skills s))), s).
Proof.
  unfold get_content, try_catch, bind, About.findOne, gets, ret. cbn.
  now destruct (abouts s).
Qed.

Lemma put_skills_distinct now names s :
  NoDup names ->
  exists docs s',
    put_skills now names s = (res_json (JNames names), s') /\
    skills s' = docs /\ map SkillSchema.name docs = names /\
    Forall (fun x => SkillSchema.createdAt x = now /\
                     next_id s <= SkillSchema._id x) docs.
Proof.
  intros Hnd.
  destruct (insertMany_distinct now names (set_skills [] s) Hnd) as
    (docs & s' & Hrun & Hnames & Hskills & Hdocs & _); [now cbn|].
  exists docs, s'.
  unfold put_skills, try_catch, bind at 1, Skill.deleteMany, modify.
  unfold bind. rewrite Hrun. unfold ret. rewrite Hnames.
  repeat split; auto.
Qed.

(** C5. Behind the gate, [PUT /skills] with distinct names answers with
    those names; afterwards the Skill collection holds exactly one fresh
    record per name, none of the earlier ones, and [GET /content] lists
    exactly those names. *)
Theorem replace_skills_then_read now req names d w :
  endpoint req = PUT_skills names ->
  session_passes env now req d ->
  NoDup names ->
  exists w',
    serve env now req w = (res_json (JNames names), w') /\
    map SkillSchema.name (skills (db w')) = names /\
    Forall (fun x => SkillSchema.createdAt x = now /\
                     next_id (db w) <= SkillSchema._id x)
           (skills (db w')) /\
    forall now' req',
      endpoint req' = GET_content ->
      exists about projects experience,
        serve env now' req' w'
        = (res_json (JContent about projects experience names), w').
Proof.
  intros He Hp Hnd.
  destruct (put_skills_distinct now names (db w) Hnd) as
    (docs & s' & Hrun & Hskills & Hnames & Hdocs).
  exists {| db := s'; uploads := uploads w |}.
  split; [|split; [|split]].
  - unfold serve, apiRouter. rewrite He. cbn [run_chain].
    rewrite (session_passes_next _ _ _ _ _ _ Hp). cbn [run_chain].
    unfold handler. now rewrite Hrun.
  - cbn. now rewrite Hskills.
  - cbn. now rewrite Hskills.
  - intros now' req' He'. unfold serve, apiRouter. rewrite He'.
    cbn [run_chain]. unfold handler. rewrite get_content_reads.
    cbn [db]. rewrite Hskills, Hnames. eauto.
Qed.
End Skills.

(** ** Projects: the image field *)

Section ProjectImage.
Context `{Libraries}.
Variable env : Env.

Lemma post_projects_creates (now : Z) b (c : Ctx) (s : Store) :
  let data := Project.projectData b (file c) in
  let p := {| ProjectSchema._id := next_id s;
              ProjectSchema.title := ProjectSchema.body_title data;
              ProjectSchema.description :=
                ProjectSchema.body_description data;
              ProjectSchema.tech := ProjectSchema.body_tech data;
              ProjectSchema.link := ProjectSchema.body_link data;
              ProjectSchema.image := ProjectSchema.body_image data;
              ProjectSchema.createdAt := now |} in
  post_projects now b c s
  = (res_json (JProject (Some p)),
     set_projects (projects s ++ [p]) (set_next_id (S (next_id s)) s)).
Proof. reflexivity. Qed.

Lemma put_projects_updates i oid b c s l1 p0 l2 :
  castObjectId i = Some oid ->
  projects s = (l1 ++ p0 :: l2)%list ->
  (forall x, In x l1 -> ProjectSchema._id x <> oid) ->
  ProjectSchema._id p0 = oid ->
  let p := Project.apply_update (Project.projectData b (file c)) p0 in
  put_projects i b c s
  = (res_json (JProject (Some p)), set_projects (l1 ++ p :: l2) s).
Proof.
  intros Hc Hl Hn Hi p.
  unfold put_projects, try_catch, bind, Project.findByIdAndUpdate.
  rewrite Hc, Hl, update_first_some; [reflexivity| |].
  - intros x Hx. apply Nat.eqb_neq. now apply Hn.
  - now apply Nat.eqb_eq.
Qed.

(** C6, as the code has it. Behind the gate: a create or an update that
    carries an image file records the path of the stored file, which
    starts with [/uploads/], in place of any earlier value; without a file,
    a create records the payload's own [image] field, if any, and an
    update keeps the earlier path unless the payload has an [image] field;
    an update keeps every other field the payload does not mention. *)
Theorem project_image_field now req d w :
  session_passes env now req d ->
  (forall b image,
      endpoint req = POST_projects b image ->
      exists p w',
        serve env now req w = (res_json (JProject (Some p)), w') /\
        projects (db w') = (projects (db w) ++ [p])%list /\
        ProjectSchema.image p
        = match image with
          | Some originalname => Some (stored_path now originalname)
          | None => ProjectSchema.body_image b
          end) /\
  (forall i oid b image l1 p0 l2,
      endpoint req = PUT_projects i b image ->
      castObjectId i = Some oid ->
      projects (db w) = (l1 ++ p0 :: l2)%list ->
      (forall x, In x l1 -> ProjectSchema._id x <> oid) ->
      ProjectSchema._id p0 = oid ->
      exists p w',
        serve env now req w = (res_json (JProject (Some p)), w') /\
        projects (db w') = (l1 ++ p :: l2)%list /\
        ProjectSchema.image p
        = match image with
          | Some originalname => Some (stored_path now originalname)
          | None => patch (ProjectSchema.body_image b)
                          (ProjectSchema.image p0)
          end /\
        ProjectSchema.title p
        = patch (ProjectSchema.body_title b) (ProjectSchema.title p0) /\
        ProjectSchema.description p
        = patch (ProjectSchema.body_description b)
                (ProjectSchema.description p0) /\
        ProjectSchema.tech p
        = patch (ProjectSchema.body_tech b) (ProjectSchema.tech p0) /\
        ProjectSchema.link p
        = patch (ProjectSchema.body_link b) (ProjectSchema.link p0) /\
        ProjectSchema._id p = ProjectSchema._id p0 /\
        ProjectSchema.createdAt p = ProjectSchema.createdAt p0) /\
  (forall originalname,
      startsWith (stored_path now originalname) "/uploads/" = true).
Proof.
  intros Hp. split; [|split].
  - intros b image He. unfold serve, apiRouter. rewrite He.
    cbn [run_chain]. rewrite (session_passes_next _ _ _ _ _ _ Hp).
    cbn [run_chain]. unfold upload_single, handler.
    destruct image as [originalname|]; cbn [run_chain];
      rewrite post_projects_creates; cbn;
      eexists; eexists; repeat split.
  - intros i oid b image l1 p0 l2 He Hc Hl Hn Hi.
    unfold serve, apiRouter. rewrite He.
    cbn [run_chain]. rewrite (session_passes_next _ _ _ _ _ _ Hp).
    cbn [run_chain]. unfold upload_single, handler.
    destruct image as [originalname|]; cbn [run_chain db uploads];
      rewrite (put_projects_updates i oid b _ (db w) l1 p0 l2
                 Hc Hl Hn Hi);
      cbn; eexists; eexists; repeat split.
  - intros originalname. apply prefix_uploads.
Qed.
End ProjectImage.

(** ** Bootstrap *)

Lemma or_default_nonempty (a : option string) (d : string) :
  d <> "" -> or_default a d <> "".
Proof.
  intros Hd. unfold or_default. destruct a as [s|]; [|exact Hd].
  destruct (String.eqb_spec s ""); assumption.
Qed.

Section Bootstrap.
Context `{Libraries}.
Variable env : Env.

(** C9. [seedAdmin] creates an administrator exactly when there is none:
    one record, with the configured or default email and the hash of the
    configured or default password, so that the plaintext is not what is
    stored; with an administrator present it writes nothing, and a second
    run leaves the count at one. *)
Theorem seedAdmin_creates_once s :
  let email := or_default (ADMIN_EMAIL env) "admin@gmail.com" in
  let plain := or_default (ADMIN_PASSWORD env) "admin123" in
  let hashed := bcrypt_hashSync plain 10 in
  hashed <> "" ->
  (admins s = [] ->
   let a := {| AdminSchema._id := next_id s; AdminSchema.email := email;
               AdminSchema.password := hashed |} in
   let s' := set_next_id (S (next_id s)) (set_admins [a] s) in
   seedAdmin env s = (Ret tt, s') /\
   (hashed <> plain ->
    forall x, In x (admins s') -> AdminSchema.password x <> plain) /\
   seedAdmin env s' = (Ret tt, s') /\
   length (admins (snd (seedAdmin env (snd (seedAdmin env s))))) = 1) /\
  (admins s <> [] -> seedAdmin env s = (Ret tt, s)).
Proof.
  intros email plain hashed Hne. split.
  - intros Ha a s'.
    assert (Hrun : seedAdmin env s = (Ret tt, s')).
    { unfold seedAdmin, bind, Admin.countDocuments, gets at 1.
      rewrite Ha. cbn [length Nat.eqb]. unfold Admin.create.
      fold email. fold plain. fold hashed.
      replace (String.eqb email "") with false
        by (symmetry; apply String.eqb_neq, or_default_nonempty;
            discriminate).
      replace (String.eqb hashed "") with false
        by (symmetry; now apply String.eqb_neq).
      cbn. rewrite Ha. reflexivity. }
    assert (Hagain : seedAdmin env s' = (Ret tt, s')) by reflexivity.
    split; [exact Hrun|]. split; [|split].
    + intros Hh x [<- | []]. exact Hh.
    + exact Hagain.
    + rewrite Hrun. cbn [snd]. rewrite Hagain. reflexivity.
  - intros Ha. unfold seedAdmin, bind, Admin.countDocuments, gets.
    destruct (admins s); [contradiction|reflexivity].
Qed.
End Bootstrap.

(** * The properties at work on the sample implementation *)

Module Runs.
Import Sample.

Lemma sample_session now e :
  (now < 5000)%Z ->
  @session_passes libraries env now (request e) {| id := Some 0 |}.
Proof.
  intros Hnow. exists "0.5000.s3cret". split; [reflexivity|].
  cbn. unfold verify. cbn.
  destruct (Z.leb_spec 5000 now); [lia | reflexivity].
Qed.

(** An expired token on [PUT /skills]: 401, nothing written. *)
Lemma protected_rejects_before_mutation_witness :
  exists r,
    run 6000 (request (PUT_skills ["Go"])) seeded = (r, seeded) /\
    status r = 401.
Proof.
  apply (@protected_rejects_before_mutation libraries env 6000).
  - reflexivity.
  - right. exists "0.5000.s3cret", "jwt expired". split; reflexivity.
Defined.

(** A header without the bearer prefix is answered "Missing Token". *)
Lemma authenticate_outcomes_witness :
  @authenticate libraries env 10
    {| authorization := Some "Token abc"; endpoint := GET_contact_submissions |}
    ctx0 seeded
  = Respond (res_status_json 401 (JMessage MissingToken)) seeded.
Proof.
  apply (proj2 (proj1 (@authenticate_outcomes libraries env 10 _ _ _))).
  intros [rest Hrest]. discriminate Hrest.
Defined.

(** A body without a password: the stored email is answered 500, an
    unknown one 401. *)
Lemma login_throw_reveals_known_email_witness :
  run 10 (anonymous (POST_login {| Login.email := "nobody@example.org";
                                   Login.password := JsUndefined |}))
      populated
  = (res_status_json 401 (JMessage "Invalid credentials"), populated) /\
  run 20 (anonymous (POST_login {| Login.email := "admin@gmail.com";
                                   Login.password := JsUndefined |}))
      populated
  = (res_status_json 500
       (JError "Login error" "Illegal arguments: undefined, string"),
     populated) /\
  fst (run 10 (anonymous (POST_login {| Login.email := "nobody@example.org";
                                        Login.password := JsUndefined |}))
           populated)
  <> fst (run 20 (anonymous (POST_login
                               {| Login.email := "admin@gmail.com";
                                  Login.password := JsUndefined |}))
              populated).
Proof.
  apply (@login_throw_reveals_known_email libraries env 10 20 None None
           {| Login.email := "nobody@example.org";
              Login.password := JsUndefined |}
           {| Login.email := "admin@gmail.com";
              Login.password := JsUndefined |}
           admin0 "Illegal arguments: undefined, string" populated);
    reflexivity.
Defined.

(** An unknown email and a wrong password against the seeded store. *)
Lemma login_failures_indistinguishable_witness :
  run 10 {| authorization := None;
            endpoint := POST_login {| Login.email := "nobody@example.org";
                                      Login.password := JsString "hunter2" |} |}
      seeded
  = (res_status_json 401 (JMessage "Invalid credentials"), seeded) /\
  run 20 {| authorization := None;
            endpoint := POST_login {| Login.email := "admin@gmail.com";
                                      Login.password := JsString "hunter3" |} |}
      seeded
  = (res_status_json 401 (JMessage "Invalid credentials"), seeded).
Proof.
  apply (@login_failures_indistinguishable libraries env 10 20 None None
           _ _ {| AdminSchema._id := 0;
                  AdminSchema.email := "admin@gmail.com";
                  AdminSchema.password := "$2a$10$2retnuh" |});
    reflexivity.
Defined.

Lemma update_about_upserts_witness :
  (exists d1,
      run 5 (request (PUT_about (about_body "Me" "Hi"))) populated
      = (res_json (JAbout d1),
         {| db := set_abouts [d1] (db populated);
            uploads := uploads populated |}) /\
      AboutSchema.title d1 = Some "Me" /\
      AboutSchema.text d1 = Some "Hi" /\
      AboutSchema._id d1 = 0 /\
      AboutSchema.createdAt d1 = 3%Z) /\
  (exists d1,
      fst (run 5 (request (PUT_about (about_body "Me" "Hi"))) fresh_world)
      = res_json (JAbout d1) /\
      abouts (db (snd (run 5 (request (PUT_about (about_body "Me" "Hi")))
                           fresh_world))) = [d1] /\
      AboutSchema.title d1 = Some "Me" /\ AboutSchema.text d1 = Some "Hi") /\
  length (abouts (db (@serve_all libraries env
                        [(1%Z, request (PUT_about (about_body "Hi" "a")));
                         (9000%Z, request (PUT_about (about_body "Yo" "b")));
                         (3%Z, request (PUT_about (about_body "Ho" "c")))]
                        fresh_world))) <= 1 /\
  length (abouts (db (@serve_all libraries env
                        [(1%Z, request (PUT_about (about_body "Hi" "a")));
                         (2%Z, request (PUT_about (about_body "Yo" "b")))]
                        fresh_world))) = 1.
Proof.
  destruct (@update_about_upserts libraries env)
    as (Hthere & Hnone & Hseq & Htwice).
  split; [|split; [|split]].
  - apply (Hthere 5%Z (request (PUT_about (about_body "Me" "Hi")))
             (about_body "Me" "Hi") {| id := Some 0 |}
             populated about0 []);
      [reflexivity | apply sample_session; lia | reflexivity].
  - apply (Hnone 5%Z (request (PUT_about (about_body "Me" "Hi")))
             (about_body "Me" "Hi") {| id := Some 0 |} fresh_world);
      [reflexivity | apply sample_session; lia | reflexivity].
  - apply Hseq; [repeat constructor | cbn; lia].
  - apply (Htwice 1%Z 2%Z _ _ (about_body "Hi" "a") (about_body "Yo" "b")
             {| id := Some 0 |} {| id := Some 0 |});
      try reflexivity; apply sample_session; lia.
Defined.

Lemma replace_skills_then_read_witness :
  exists w',
    run 10 (request (PUT_skills ["Go"; "Rust"])) populated
    = (res_json (JNames ["Go"; "Rust"]), w') /\
    map SkillSchema.name (skills (db w')) = ["Go"; "Rust"] /\
    Forall (fun x => SkillSchema.createdAt x = 10%Z /\
                     next_id (db populated) <= SkillSchema._id x)
           (skills (db w')) /\
    forall now' req',
      endpoint req' = GET_content ->
      exists about projects experience,
        run now' req' w'
        = (res_json (JContent about projects experience ["Go"; "Rust"]),
           w').
Proof.
  apply (@replace_skills_then_read libraries env 10 _ ["Go"; "Rust"]
           {| id := Some 0 |}).
  - reflexivity.
  - apply sample_session; lia.
  - repeat constructor; cbn; intuition discriminate.
Defined.

(** A path parameter that is no identifier: the delete is answered 500,
    not acknowledged. *)
Lemma delete_uncastable_counterexample :
  (forall p, In p (projects (db populated)) ->
             castObjectId (Libraries := libraries) "not-an-id"
             <> Some (ProjectSchema._id p)) /\
  run 10 (request (DELETE_projects "not-an-id")) populated
  = ({| status := 500;
        json := JError "Delete error" "Cast to ObjectId failed" |},
     populated) /\
  run 10 (request (DELETE_experience "not-an-id")) populated
  = ({| status := 500;
        json := JError "Delete error" "Cast to ObjectId failed" |},
     populated).
Proof.
  split; [|split; reflexivity].
  intros p _. discriminate.
Qed.

Lemma delete_absent_or_uncastable_witness :
  run 10 (request (DELETE_projects "42")) populated
  = (res_json (JMessage "Deleted"), populated) /\
  run 10 (request (DELETE_experience "42")) populated
  = (res_json (JMessage "Deleted"), populated) /\
  (exists e,
      run 10 (request (DELETE_projects "not-an-id")) populated
      = (res_status_json 500 (JError "Delete error" e), populated)) /\
  (exists e,
      run 10 (request (DELETE_experience "not-an-id")) populated
      = (res_status_json 500 (JError "Delete error" e), populated)).
Proof.
  split; [|split; [|split]].
  - apply (proj1 (proj1 (@delete_absent_or_uncastable libraries env 10
                           (request (DELETE_projects "42"))
                           {| id := Some 0 |} "42" populated
                           (sample_session 10 _ eq_refl)) 42 eq_refl));
      [reflexivity|].
    intros p [<- | []]. discriminate.
  - apply (proj2 (proj1 (@delete_absent_or_uncastable libraries env 10
                           (request (DELETE_experience "42"))
                           {| id := Some 0 |} "42" populated
                           (sample_session 10 _ eq_refl)) 42 eq_refl));
      [reflexivity|].
    intros x [<- | []]. discriminate.
  - apply (proj2 (@delete_absent_or_uncastable libraries env 10
                    (request (DELETE_projects "not-an-id"))
                    {| id := Some 0 |} "not-an-id" populated
                    (sample_session 10 _ eq_refl)) eq_refl).
    now left.
  - apply (proj2 (@delete_absent_or_uncastable libraries env 10
                    (request (DELETE_experience "not-an-id"))
                    {| id := Some 0 |} "not-an-id" populated
                    (sample_session 10 _ eq_refl)) eq_refl).
    now right.
Defined.

(** An update of a project that does not exist is answered 200 with
    [null]: not a failure. *)
Lemma update_absent_counterexample :
  castObjectId (Libraries := libraries) "42" = Some 42 /\
  (forall p, In p (projects (db with_project)) ->
             ProjectSchema._id p <> 42) /\
  fst (run 10 (request (PUT_projects "42" (project_body "New" None) None))
           with_project)
  = {| status := 200; json := JProject None |} /\
  fst (run 10 (request (PUT_experience "42" (experience_body "Dev")))
           with_project)
  = {| status := 200; json := JExperience None |}.
Proof.
  split; [reflexivity|]. split; [|split; reflexivity].
  intros p [<- | []]. discriminate.
Qed.

Lemma update_absent_answers_null_witness :
  (fst (run 10 (request (PUT_projects "42" (project_body "New" None)
                                      (Some "new.png"))) with_project)
   = res_json (JProject None) /\
   db (snd (run 10 (request (PUT_projects "42" (project_body "New" None)
                                          (Some "new.png"))) with_project))
   = db with_project) /\
  run 10 (request (PUT_experience "42" (experience_body "Dev")))
      with_project
  = (res_json (JExperience None), with_project) /\
  status (fst (run 10 (request (PUT_projects "x1" (project_body "New" None)
                                             None)) with_project)) = 500 /\
  status (fst (run 10 (request (PUT_experience "x1" (experience_body "Dev")))
                   with_project)) = 500.
Proof.
  split; [|split; [|split]].
  - apply (proj1 (@update_absent_answers_null libraries env 10 _
                    {| id := Some 0 |} "42" with_project
                    (sample_session 10 _ eq_refl))
             42 (project_body "New" None) (Some "new.png"));
      [reflexivity | reflexivity |].
    intros p [<- | []]. discriminate.
  - apply (proj1 (proj2 (@update_absent_answers_null libraries env 10 _
                           {| id := Some 0 |} "42" with_project
                           (sample_session 10 _ eq_refl)))
             42 (experience_body "Dev"));
      [reflexivity | reflexivity |].
    intros x [].
  - apply (proj1 (proj2 (proj2 (@update_absent_answers_null libraries env 10
                           _ {| id := Some 0 |} "x1" with_project
                           (sample_session 10 _ eq_refl))) eq_refl)
             (project_body "New" None) None).
    reflexivity.
  - apply (proj2 (proj2 (proj2 (@update_absent_answers_null libraries env 10
                           _ {| id := Some 0 |} "x1" with_project
                           (sample_session 10 _ eq_refl))) eq_refl)
             (experience_body "Dev")).
    reflexivity.
Defined.

(** A create without a file stores the [image] text field of the payload,
    and an update without a file replaces the earlier path by it. *)
Lemma project_image_counterexample :
  (exists p w',
      run 10 (request (POST_projects
                         (project_body "Site" (Some "https://cdn.example/p.png"))
                         None)) fresh_world
      = (res_json (JProject (Some p)), w') /\
      In p (projects (db w')) /\
      ProjectSchema.image p = Some "https://cdn.example/p.png") /\
  (exists p w',
      run 10 (request (PUT_projects "0"
                         (project_body "Compiler" (Some "https://cdn.example/q.png"))
                         None)) with_project
      = (res_json (JProject (Some p)), w') /\
      projects (db w') = [p] /\
      ProjectSchema.image project0 = Some "/uploads/7-old.png" /\
      ProjectSchema.image p = Some "https://cdn.example/q.png").
Proof.
  split; eexists; eexists; (split; [reflexivity|]); cbn; auto.
Qed.

Lemma project_image_field_witness :
  (exists p w',
      run 10 (request (POST_projects (project_body "Site" None)
                                     (Some "logo.png"))) fresh_world
      = (res_json (JProject (Some p)), w') /\
      projects (db w') = (projects (db fresh_world) ++ [p])%list /\
      ProjectSchema.image p = Some (stored_path 10 "logo.png")) /\
  (exists p w',
      run 10 (request (PUT_projects "0" (project_body "Compiler 2" None)
                                    None)) with_project
      = (res_json (JProject (Some p)), w') /\
      projects (db w') = [p] /\
      ProjectSchema.image p = Some "/uploads/7-old.png" /\
      ProjectSchema.title p = Some "Compiler 2" /\
      ProjectSchema.description p = Some "A small compiler").
Proof.
  split.
  - apply (proj1 (@project_image_field libraries env 10 _
                    {| id := Some 0 |} fresh_world
                    (sample_session 10 _ eq_refl))
             (project_body "Site" None) (Some "logo.png") eq_refl).
  - destruct (proj1 (proj2 (@project_image_field libraries env 10 _
                    {| id := Some 0 |} with_project
                    (sample_session 10 _ eq_refl)))
             "0" 0 (project_body "Compiler 2" None) None
             [] project0 [] eq_refl eq_refl eq_refl
             (fun x (F : In x []) => match F with end) eq_refl)
      as (p & w' & Hrun & Hl & Hi & Ht & Hd & _).
    exists p, w'. repeat split; assumption.
Defined.

Lemma seedAdmin_creates_once_witness :
  @seedAdmin libraries env empty_store = (Ret tt, db seeded) /\
  admins (db seeded)
  = [{| AdminSchema._id := 0; AdminSchema.email := "admin@gmail.com";
        AdminSchema.password := "$2a$10$2retnuh" |}] /\
  (forall x, In x (admins (db seeded)) ->
             AdminSchema.password x <> "hunter2") /\
  @seedAdmin libraries env (db seeded) = (Ret tt, db seeded) /\
  length (admins (snd (@seedAdmin libraries env (db seeded)))) = 1.
Proof.
  destruct (@seedAdmin_creates_once libraries env empty_store)
    as [Hfirst _]; [discriminate|].
  destruct (Hfirst eq_refl) as (Hrun & Hplain & Hagain & Hcount).
  split; [exact Hrun|]. split; [reflexivity|].
  split; [apply Hplain; discriminate|].
  split; [exact Hagain | exact Hcount].
Defined.

(** The login answer, unlike the gate's, depends on the stored
    administrators. *)
Lemma login_reads_the_store :
  fst (run 10 {| authorization := None;
                 endpoint := POST_login {| Login.email := "admin@gmail.com";
                                           Login.password := JsString "hunter2" |} |}
           seeded)
  = res_json (JToken "0.86400010.s3cret") /\
  fst (run 10 {| authorization := None;
                 endpoint := POST_login {| Login.email := "admin@gmail.com";
                                           Login.password := JsString "hunter2" |} |}
           fresh_world)
  = res_status_json 401 (JMessage "Invalid credentials").
Proof. split; reflexivity. Qed.
End Runs.


(** * Further properties of the handlers *)

(** ** Sorted listings *)

Section SortDesc.
Context {A : Type} (key : A -> Z).

Lemma insert_desc_perm (x : A) (l : list A) :
  Permutation (insert_desc key x l) (x :: l).
Proof.
  induction l as [|y l IH]; cbn; [reflexivity|].
  destruct (Z.ltb (key y) (key x)); [reflexivity|].
  rewrite IH. apply perm_swap.
Qed.

Lemma sort_desc_perm (l : list A) : Permutation (sort_desc key l) l.
Proof.
  induction l as [|x l IH]; cbn; [reflexivity|].
  rewrite insert_desc_perm. now constructor.
Qed.

Lemma insert_desc_sorted (x : A) (l : list A) :
  newest_first key l -> newest_first key (insert_desc key x l).
Proof.
  unfold newest_first. induction 1 as [|y l Hs IH Hy]; cbn.
  - repeat constructor.
  - destruct (Z.ltb_spec (key y) (key x)) as [Hlt|Hge].
    + constructor; [now constructor|].
      constructor; [lia|].
      eapply Forall_impl; [|exact Hy]. cbn. intros b Hb. lia.
    + constructor; [exact IH|].
      eapply Permutation_Forall;
        [symmetry; apply insert_desc_perm|].
      constructor; [lia | exact Hy].
Qed.

Lemma sort_desc_sorted (l : list A) : newest_first key (sort_desc key l).
Proof.
  induction l as [|x l IH]; cbn; [constructor|].
  now apply insert_desc_sorted.
Qed.

Lemma insert_desc_below (x p : A) (l : list A) :
  (key x < key p)%Z ->
  insert_desc key x (p :: l) = p :: insert_desc key x l.
Proof.
  intros Hlt. cbn. destruct (Z.ltb_spec (key p) (key x)); [lia|reflexivity].
Qed.

Lemma sort_desc_newest_last (l : list A) (p : A) :
  (forall x, In x l -> (key x < key p)%Z) ->
  sort_desc key (l ++ [p]) = p :: sort_desc key l.
Proof.
  unfold sort_desc.
  induction l as [|x l IH]; intros Hl; cbn [app fold_right]; [reflexivity|].
  rewrite IH by (intros y Hy; apply Hl; now right).
  apply insert_desc_below. apply Hl. now left.
Qed.
End SortDesc.

Section Reads.
Context `{Libraries}.
Variable env : Env.

(** X1. [GET /content], whatever the header: the first About record as
    loaded, its title and text those stored or, where the record has none,
    the schema's defaults, or the fallback when there is no record; every
    project and every experience entry exactly once with the latest
    [createdAt] first; the skill names in store order; nothing is
    written. *)
Theorem content_lists_newest_first now req w :
  endpoint req = GET_content ->
  exists about ps xs,
    serve env now req w
    = (res_json
         (JContent about ps xs (map SkillSchema.name (skills (db w)))), w) /\
    match abouts (db w) with
    | d :: _ =>
        exists a,
          about = inl a /\
          AboutSchema._id a = AboutSchema._id d /\
          AboutSchema.createdAt a = AboutSchema.createdAt d /\
          AboutSchema.title a
          = Some (match AboutSchema.title d with
                  | Some t => t | None => "About Me" end) /\
          AboutSchema.text a
          = Some (match AboutSchema.text d with
                  | Some t => t | None => "" end)
    | [] => about = inr ("About Me", "")
    end /\
    Permutation ps (projects (db w)) /\
    newest_first ProjectSchema.createdAt ps /\
    Permutation xs (experiences (db w)) /\
    newest_first ExperienceSchema.createdAt xs.
Proof.
  intros He.
  exists (match hd_error (abouts (db w)) with
          | Some d => inl (About.hydrate d)
          | None => inr ("About Me", "")
          end),
         (sort_desc ProjectSchema.createdAt (projects (db w))),
         (sort_desc ExperienceSchema.createdAt (experiences (db w))).
  split; [|split; [|repeat split;
                    auto using sort_desc_perm, sort_desc_sorted]].
  - unfold serve, apiRouter. rewrite He. cbn [run_chain]. unfold handler.
    now rewrite get_content_reads, world_eta.
  - destruct (abouts (db w)) as [|d rest]; [reflexivity|].
    cbn. eexists. repeat split.
Qed.

(** X2. Behind the gate, [GET /contact/submissions] lists every submission
    exactly once, the latest [date] first, and writes nothing. *)
Theorem submissions_listed_newest_first now req d w :
  endpoint req = GET_contact_submissions ->
  session_passes env now req d ->
  exists l,
    serve env now req w = (res_json (JSubmissions l), w) /\
    Permutation l (submissions (db w)) /\
    newest_first SubmissionSchema.date l.
Proof.
  intros He Hp.
  exists (sort_desc SubmissionSchema.date (submissions (db w))).
  split; [|split; auto using sort_desc_perm, sort_desc_sorted].
  unfold serve, apiRouter. rewrite He. cbn [run_chain].
  rewrite (session_passes_next _ _ _ _ _ _ Hp). cbn [run_chain].
  unfold handler. cbn. now rewrite world_eta.
Qed.

(** X3. The public routes do not look at the [Authorization] header. *)
Theorem public_routes_ignore_header now h1 h2 e w :
  protected e = false ->
  serve env now {| authorization := h1; endpoint := e |} w
  = serve env now {| authorization := h2; endpoint := e |} w.
Proof. intros Hp. destruct e; try discriminate Hp; reflexivity. Qed.

Lemma post_login_keeps_store now b s : snd (post_login env now b s) = s.
Proof.
  unfold post_login, try_catch, bind, Admin.findOne, gets, lift, ret, throw.
  destruct (find _ (admins s)) as [a|]; [|reflexivity].
  destruct bcrypt_compareSync as [[|]|e]; try reflexivity.
  now destruct jwt_sign.
Qed.

(** X4. [GET /content], [POST /login] and [GET /contact/submissions] leave
    the store and the upload directory as they were, whatever the request
    carries and whatever they answer. *)
Theorem reading_routes_write_nothing now req w :
  reads_only (endpoint req) = true ->
  snd (serve env now req w) = w.
Proof.
  intros Hr. unfold serve, apiRouter.
  destruct (endpoint req) as [| b | | | | | | | | | |] eqn:He;
    try discriminate Hr; cbn [run_chain]; unfold handler.
  - rewrite get_content_reads. cbn. apply world_eta.
  - pose proof (post_login_keeps_store now b (db w)) as Hs.
    destruct (post_login env now b (db w)); cbn in *. subst.
    apply world_eta.
  - pose proof (authenticate_keeps_world env now req ctx0 w) as Hk.
    destruct (authenticate env now req ctx0 w); subst; [reflexivity|].
    cbn. apply world_eta.
Qed.

End Reads.

(** ** What a request can and cannot write *)

Lemma insertMany_frame (now : Z) (names : list string) : forall s,
  writes_within false false false true false
                s (snd (Skill.insertMany now names s)).
Proof.
  induction names as [|n names IH]; intros s.
  - cbn. repeat split.
  - cbn [Skill.insertMany]. unfold bind at 1. unfold Skill.insertOne.
    destruct (existsb _ (skills s)); [cbn; repeat split|].
    unfold bind.
    match goal with
    | |- context [Skill.insertMany now names ?s1] =>
        specialize (IH s1); destruct (Skill.insertMany now names s1)
          as [[ds|e] s2]
    end; unfold writes_within in *; cbn in *; intuition discriminate.
Qed.

Section Frame.
Context `{Libraries}.
Variable env : Env.
Variable now : Z.

Lemma authenticate_next_passes req c c' w w' :
  authenticate env now req c w = Next c' w' ->
  exists d, session_passes env now req d /\
            c' = {| adminId := id d; file := file c |} /\ w' = w.
Proof.
  intros Ha.
  destruct (bearer_format_dec (authorization req)) as [[rest Hh]|Hno].
  - rewrite (authenticate_bearer _ _ _ _ _ _ Hh) in Ha.
    destruct jwt_verify as [d|e] eqn:Hv; [|discriminate].
    injection Ha as <- <-. exists d. repeat split. now exists rest.
  - rewrite authenticate_no_bearer in Ha by assumption. discriminate.
Qed.

(** A request is stopped by the gate, or reaches the handler of its route
    with the store as it was and at most one more uploaded file. *)
Lemma serve_cases req w :
  (protected (endpoint req) = true /\
   exists r, authenticate env now req ctx0 w = Respond r w /\
             serve env now req w = (r, w)) \/
  exists c u,
    (u = uploads w \/
     exists originalname d,
       route_upload (endpoint req) = Some originalname /\
       session_passes env now req d /\
       u = stored_name now originalname :: uploads w) /\
    serve env now req w
    = (fst (route_handler env now (endpoint req) c (db w)),
       {| db := snd (route_handler env now (endpoint req) c (db w));
          uploads := u |}).
Proof.
  assert (Hrun : forall (h : Ctx -> Store -> Response * Store) c u,
             run_chain [handler h] c {| db := db w; uploads := u |}
             = (fst (h c (db w)),
                {| db := snd (h c (db w)); uploads := u |})).
  { intros h c u. cbn. unfold handler. cbn. now destruct (h c (db w)). }
  unfold serve, apiRouter.
  destruct (endpoint req) as
    [| b | b | b | b image | i b image | i | b | i b | i | b |] eqn:He;
    cbn [protected route_upload route_handler];
    try (right; exists ctx0, (uploads w); split; [now left|];
         rewrite <- (world_eta w) at 1; apply Hrun);
    cbn [run_chain];
    pose proof (authenticate_keeps_world env now req ctx0 w) as Hk;
    destruct (authenticate env now req ctx0 w) as [r w1|c w1] eqn:Ha;
    subst w1; try (left; split; [reflexivity|]; now exists r);
    right.
  1,2,5-9:
    exists c, (uploads w); (split; [now left|]);
    rewrite <- (world_eta w) at 1; apply Hrun.
  all: destruct (authenticate_next_passes _ _ _ _ _ Ha) as (d & Hd & _);
    unfold upload_single; destruct image as [originalname|].
  1,3: eexists; exists (stored_name now originalname :: uploads w);
    (split; [right; exists originalname; now exists d|]); apply Hrun.
  all: exists c, (uploads w); (split; [now left|]);
    rewrite <- (world_eta w) at 1; apply Hrun.
Qed.
Ltac open_handler :=
  unfold get_content, post_login, put_about, put_skills, post_projects,
    put_projects, delete_projects, post_experience, put_experience,
    delete_experience, post_contact_submit, get_contact_submissions;
  unfold About.findOne, About.save, About.create, Project.create,
    Project.find_sorted, Project.findByIdAndUpdate,
    Project.findByIdAndDelete, Experience.create, Experience.find_sorted,
    Experience.findByIdAndUpdate, Experience.findByIdAndDelete,
    Skill.deleteMany, Skill.find, Submission.create,
    Submission.find_sorted, Admin.findOne;
  unfold try_catch, bind, lift, ret, throw, gets, modify, fresh.

Ltac split_store_calls :=
  repeat match goal with
    | |- context [castObjectId ?i] => destruct (castObjectId i)
    | |- context [update_first ?p ?f ?l] => destruct (update_first p f l)
    | |- context [remove_first ?p ?l] => destruct (remove_first p l)
    | |- context [hd_error ?l] => destruct (hd_error l)
    | |- context [find ?p ?l] => destruct (find p l)
    | |- context [bcrypt_compareSync ?p ?h] =>
        destruct (bcrypt_compareSync p h) as [[|]|]
    | |- context [jwt_sign ?i ?k ?x ?n] => destruct (jwt_sign i k x n)
    | |- context [SubmissionSchema.body_date ?b] =>
        destruct (SubmissionSchema.body_date b)
    | |- context [Submission.valid_date ?t] =>
        destruct (Submission.valid_date t)
    end.

Lemma route_handler_frame e c s :
  writes_within (is_PUT_about e) (is_project_route e)
                (is_experience_route e) (is_PUT_skills e)
                (is_POST_contact_submit e)
                s (snd (route_handler env now e c s)).
Proof.
  destruct e as
    [| b | b | b | b image | i b image | i | b | i b | i | b |];
    cbn [route_handler is_PUT_about is_project_route is_experience_route
         is_PUT_skills is_POST_contact_submit].
  4: { pose proof (insertMany_frame now b (set_skills [] s)) as Hf.
       open_handler.
       destruct (Skill.insertMany now b (set_skills [] s)) as [[ds|e] s'];
         unfold writes_within in *; cbn in *; intuition discriminate. }
  all: open_handler; unfold writes_within; split_store_calls; cbn;
    repeat split; intros; try reflexivity; discriminate.
Qed.

Lemma route_handler_answered e c s :
  answered (fst (route_handler env now e c s)).
Proof.
  unfold answered.
  destruct e as
    [| b | b | b | b image | i b image | i | b | i b | i | b |];
    cbn [route_handler].
  4: { open_handler.
       destruct (Skill.insertMany now b (set_skills [] s)) as [[ds|e] s'];
         cbn; split; auto; discriminate. }
  all: open_handler; split_store_calls; cbn; split; auto; discriminate.
Qed.

(** X6. No request, accepted or not, on any route, creates, changes or
    removes an administrator record. *)
Theorem admins_never_written req w :
  admins (db (snd (serve env now req w))) = admins (db w).
Proof.
  destruct (serve_cases req w) as [(_ & r & _ & ->) | (c & u & _ & ->)];
    [reflexivity|].
  cbn. apply (route_handler_frame (endpoint req) c (db w)).
Qed.

(** X7. Each route writes its own collection only: the About records change
    on [PUT /about] alone, the skills on [PUT /skills], the projects and the
    upload directory on the three project routes, the experience entries on
    the three experience routes, the submissions on [POST /contact/submit]. *)
Theorem routes_write_own_collection req w :
  let w' := snd (serve env now req w) in
  (is_PUT_about (endpoint req) = false ->
   abouts (db w') = abouts (db w)) /\
  (is_PUT_skills (endpoint req) = false ->
   skills (db w') = skills (db w)) /\
  (is_project_route (endpoint req) = false ->
   projects (db w') = projects (db w) /\ uploads w' = uploads w) /\
  (is_experience_route (endpoint req) = false ->
   experiences (db w') = experiences (db w)) /\
  (is_POST_contact_submit (endpoint req) = false ->
   submissions (db w') = submissions (db w)).
Proof.
  cbn zeta.
  destruct (serve_cases req w) as [(_ & r & _ & ->) | (c & u & Hu & ->)];
    [cbn; tauto|].
  cbn [snd db uploads].
  destruct (route_handler_frame (endpoint req) c (db w))
    as (_ & Ha & Hp & Hx & Hk & Hm).
  repeat split; auto.
  destruct Hu as [-> | (o & d & Hup & _ & _)]; [reflexivity|].
  destruct (endpoint req); discriminate.
Qed.

(** X8. Every answer carries status 200, 401 or 500 and comes from a
    handler or from the gate: no request falls through its route. *)
Theorem every_request_answered req w :
  answered (fst (serve env now req w)).
Proof.
  destruct (serve_cases req w) as [(_ & r & Ha & ->) | (c & u & _ & ->)].
  - cbn. unfold answered.
    destruct (bearer_format_dec (authorization req)) as [[rest Hh]|Hno].
    + rewrite (authenticate_bearer _ _ _ _ _ _ Hh) in Ha.
      destruct jwt_verify; [discriminate|]. injection Ha as <-.
      cbn. split; auto. discriminate.
    + rewrite authenticate_no_bearer in Ha by assumption.
      injection Ha as <-. cbn. split; auto. discriminate.
  - cbn. apply route_handler_answered.
Qed.

(** X9. An uploaded file is stored as soon as the gate is passed, under
    [Date.now() + '-' + originalname], whatever the handler then answers;
    no request removes a file from the upload directory, and no other
    request adds one. *)
Theorem uploads_only_grow req w :
  (forall originalname d,
      route_upload (endpoint req) = Some originalname ->
      session_passes env now req d ->
      uploads (snd (serve env now req w))
      = stored_name now originalname :: uploads w) /\
  (uploads (snd (serve env now req w)) = uploads w \/
   exists originalname d,
     route_upload (endpoint req) = Some originalname /\
     session_passes env now req d /\
     uploads (snd (serve env now req w))
     = stored_name now originalname :: uploads w).
Proof.
  split.
  - intros o d Hup Hp. unfold serve, apiRouter.
    destruct (endpoint req) as
      [| b | b | b | b image | i b image | i | b | i b | i | b |];
      try discriminate Hup; cbn in Hup; subst image; cbn [run_chain];
      rewrite (session_passes_next _ _ _ _ _ _ Hp); cbn [run_chain];
      unfold upload_single; cbn [run_chain]; unfold handler; cbn [db uploads];
      match goal with
      | |- context [let (_, _) := ?x in _] => now destruct x
      end.
  - destruct (serve_cases req w) as [(_ & r & _ & ->) | (c & u & Hu & ->)];
      [now left|].
    cbn [snd uploads].
    destruct Hu as [-> | (o & d & Hup & Hp & ->)]; [now left|].
    right. now exists o, d.
Qed.
End Frame.

(** ** Skills: a repeated name *)

Lemma existsb_name_true (n : string) (l : list SkillSchema.doc) :
  In n (map SkillSchema.name l) ->
  existsb (fun d => String.eqb (SkillSchema.name d) n) l = true.
Proof.
  intros Hin. apply in_map_iff in Hin as (d & Hd & Hin).
  apply existsb_exists. exists d. split; [exact Hin|].
  now apply String.eqb_eq.
Qed.

Lemma insertMany_duplicate (now : Z) (pre : list string) (n : string)
      (post : list string) : forall s,
  NoDup pre ->
  (forall m, In m pre -> ~ In m (map SkillSchema.name (skills s))) ->
  In n pre \/ In n (map SkillSchema.name (skills s)) ->
  exists e docs s',
    Skill.insertMany now (pre ++ n :: post) s = (Throw e, s') /\
    map SkillSchema.name docs = pre /\
    skills s' = (skills s ++ docs)%list.
Proof.
  induction pre as [|m pre IH]; intros s Hnd Hfresh Hn.
  - destruct Hn as [[]|Hn].
    exists "E11000 duplicate key error", [], s.
    cbn [app Skill.insertMany]. unfold bind, Skill.insertOne.
    rewrite existsb_name_true by assumption.
    rewrite app_nil_r. repeat split.
  - inversion Hnd as [|m' l Hnotin Hnd']; subst.
    set (d := {| SkillSchema._id := next_id s; SkillSchema.name := m;
                 SkillSchema.createdAt := now |}).
    set (s1 := set_next_id (S (next_id s))
                 (set_skills (skills s ++ [d]) s)).
    destruct (IH s1 Hnd') as (e & docs & s' & Hrun & Hnames & Hskills).
    { intros k Hk. cbn. rewrite map_app, in_app_iff. cbn.
      intros [Hold | [Heq | []]].
      - apply (Hfresh k); [now right | exact Hold].
      - subst k. contradiction. }
    { cbn. rewrite map_app, in_app_iff. cbn.
      destruct Hn as [[<- | Hn] | Hn]; auto. }
    exists e, (d :: docs), s'.
    cbn [app Skill.insertMany]. unfold bind at 1. unfold Skill.insertOne.
    rewrite existsb_name_false by (apply Hfresh; now left).
    fold d. fold s1. unfold bind at 1. rewrite Hrun.
    split; [reflexivity|]. cbn [map]. rewrite Hnames.
    split; [reflexivity|].
    rewrite Hskills. cbn. now rewrite <- app_assoc.
Qed.

Lemma remove_first_some {A : Type} (p : A -> bool) (l1 l2 : list A) (x : A) :
  (forall y, In y l1 -> p y = false) -> p x = true ->
  remove_first p (l1 ++ x :: l2)%list = (Some x, (l1 ++ l2)%list).
Proof.
  intros Hl Hx. induction l1 as [|y l1 IH]; cbn.
  - now rewrite Hx.
  - rewrite (Hl y) by now left.
    rewrite IH; [reflexivity|]. intros z Hz. apply Hl. now right.
Qed.

Lemma first_word_alone (t : string) :
  no_space t = true -> first_word t = t.
Proof.
  induction t as [|c t IH]; cbn; [reflexivity|].
  destruct (Ascii.eqb c " "%char); cbn; [discriminate|].
  intros Ht. now rewrite IH.
Qed.

Lemma first_word_before_space (t rest : string) :
  no_space t = true -> first_word (t ++ " " ++ rest) = t.
Proof.
  induction t as [|c t IH]; cbn in *; [reflexivity|].
  destruct (Ascii.eqb c " "%char); cbn; [discriminate|].
  intros Ht. now rewrite IH.
Qed.

Section Writes.
Context `{Libraries}.
Variable env : Env.

Ltac pass_gate Hp He :=
  unfold serve, apiRouter; rewrite He; cbn [run_chain];
  rewrite (session_passes_next _ _ _ _ _ _ Hp); cbn [run_chain].

(** X10. Behind the gate, [PUT /skills] with a list in which a name
    repeats is answered 500 "Skills update error"; the skills stored before
    are gone all the same, and the names ahead of the first repetition are
    stored. *)
Theorem replace_skills_repeated_name now req d w pre n post :
  endpoint req = PUT_skills (pre ++ n :: post) ->
  session_passes env now req d ->
  NoDup pre ->
  In n pre ->
  exists e w',
    serve env now req w
    = (res_status_json 500 (JError "Skills update error" e), w') /\
    map SkillSchema.name (skills (db w')) = pre.
Proof.
  intros He Hp Hnd Hn.
  destruct (insertMany_duplicate now pre n post (set_skills [] (db w)) Hnd)
    as (e & docs & s' & Hrun & Hnames & Hskills);
    [now cbn | now left |].
  exists e, {| db := s'; uploads := uploads w |}.
  pass_gate Hp He. unfold handler, put_skills, try_catch, bind at 1,
    Skill.deleteMany, modify. unfold bind. rewrite Hrun. cbn.
  split; [reflexivity|]. now rewrite Hskills.
Qed.

(** X11. Behind the gate, deleting by the identifier of a stored project or
    experience entry removes that record and nothing else: the other
    records keep their order, and the project's uploaded image stays in the
    upload directory. *)
Theorem delete_removes_the_record now req d i oid w :
  session_passes env now req d ->
  castObjectId i = Some oid ->
  (forall l1 p0 l2,
      endpoint req = DELETE_projects i ->
      projects (db w) = (l1 ++ p0 :: l2)%list ->
      (forall p, In p l1 -> ProjectSchema._id p <> oid) ->
      ProjectSchema._id p0 = oid ->
      serve env now req w
      = (res_json (JMessage "Deleted"),
         {| db := set_projects (l1 ++ l2) (db w); uploads := uploads w |})) /\
  (forall l1 x0 l2,
      endpoint req = DELETE_experience i ->
      experiences (db w) = (l1 ++ x0 :: l2)%list ->
      (forall x, In x l1 -> ExperienceSchema._id x <> oid) ->
      ExperienceSchema._id x0 = oid ->
      serve env now req w
      = (res_json (JMessage "Deleted"),
         {| db := set_experiences (l1 ++ l2) (db w);
            uploads := uploads w |})).
Proof.
  intros Hp Hc. split; intros l1 x0 l2 He Hl Hn Hi; pass_gate Hp He;
    unfold handler.
  - unfold delete_projects, try_catch, bind, Project.findByIdAndDelete.
    rewrite Hc, Hl, remove_first_some; [reflexivity| |].
    + intros y Hy. apply Nat.eqb_neq. now apply Hn.
    + now apply Nat.eqb_eq.
  - unfold delete_experience, try_catch, bind, Experience.findByIdAndDelete.
    rewrite Hc, Hl, remove_first_some; [reflexivity| |].
    + intros y Hy. apply Nat.eqb_neq. now apply Hn.
    + now apply Nat.eqb_eq.
Qed.

(** X12. Behind the gate, [PUT /experience/:id] on a stored entry answers
    with the updated entry: each field present in the body is replaced, each
    absent one kept, [_id] and [createdAt] kept, and the entry stays at its
    place in the collection. *)
Theorem update_experience_patches now req d i oid b l1 x0 l2 w :
  session_passes env now req d ->
  endpoint req = PUT_experience i b ->
  castObjectId i = Some oid ->
  experiences (db w) = (l1 ++ x0 :: l2)%list ->
  (forall x, In x l1 -> ExperienceSchema._id x <> oid) ->
  ExperienceSchema._id x0 = oid ->
  exists x,
    serve env now req w
    = (res_json (JExperience (Some x)),
       {| db := set_experiences (l1 ++ x :: l2) (db w);
          uploads := uploads w |}) /\
    ExperienceSchema.role x
    = patch (ExperienceSchema.body_role b) (ExperienceSchema.role x0) /\
    ExperienceSchema.company x
    = patch (ExperienceSchema.body_company b)
            (ExperienceSchema.company x0) /\
    ExperienceSchema.duration x
    = patch (ExperienceSchema.body_duration b)
            (ExperienceSchema.duration x0) /\
    ExperienceSchema.description x
    = patch (ExperienceSchema.body_description b)
            (ExperienceSchema.description x0) /\
    ExperienceSchema._id x = ExperienceSchema._id x0 /\
    ExperienceSchema.createdAt x = ExperienceSchema.createdAt x0.
Proof.
  intros Hp He Hc Hl Hn Hi.
  exists (Experience.apply_update b x0). split; [|repeat split].
  pass_gate Hp He. unfold handler.
  unfold put_experience, try_catch, bind, Experience.findByIdAndUpdate.
  rewrite Hc, Hl, update_first_some; [reflexivity| |].
  - intros y Hy. apply Nat.eqb_neq. now apply Hn.
  - now apply Nat.eqb_eq.
Qed.

(** X13. The gate verifies the word that follows [Bearer ] and nothing
    after it: a header with further words after the token is treated as the
    header with the token alone. *)
Theorem gate_reads_one_word now e t junk c w :
  no_space t = true ->
  authenticate env now
    {| authorization := Some ("Bearer " ++ t ++ " " ++ junk);
       endpoint := e |} c w
  = authenticate env now
      {| authorization := Some ("Bearer " ++ t); endpoint := e |} c w /\
  authenticate env now
    {| authorization := Some ("Bearer " ++ t); endpoint := e |} c w
  = match jwt_verify (Some t) (JWT_SECRET env) now with
    | Ret decoded => Next {| adminId := id decoded; file := file c |} w
    | Throw _ =>
        Respond (res_status_json 401 (JMessage InvalidOrExpiredToken)) w
    end.
Proof.
  intros Ht.
  rewrite (authenticate_bearer env now
             {| authorization := Some ("Bearer " ++ t ++ " " ++ junk);
                endpoint := e |} (t ++ " " ++ junk) c w eq_refl).
  rewrite (authenticate_bearer env now
             {| authorization := Some ("Bearer " ++ t); endpoint := e |}
             t c w eq_refl).
  rewrite first_word_before_space, first_word_alone by assumption.
  split; reflexivity.
Qed.
End Writes.

(** ** Requests one after the other *)

Section Sequences.
Context `{Libraries}.
Variable env : Env.

Ltac pass_gate Hp He :=
  unfold serve, apiRouter; rewrite He; cbn [run_chain];
  rewrite (session_passes_next _ _ _ _ _ _ Hp); cbn [run_chain].

Lemma seedAdmin_on_empty s :
  admins s = [] ->
  bcrypt_hashSync (or_default (ADMIN_PASSWORD env) "admin123") 10 <> "" ->
  seedAdmin env s
  = (Ret tt,
     set_next_id (S (next_id s))
       (set_admins
          [{| AdminSchema._id := next_id s;
              AdminSchema.email :=
                or_default (ADMIN_EMAIL env) "admin@gmail.com";
              AdminSchema.password :=
                bcrypt_hashSync
                  (or_default (ADMIN_PASSWORD env) "admin123") 10 |}] s)).
Proof.
  intros Ha Hne.
  unfold seedAdmin, bind, Admin.countDocuments, gets at 1.
  rewrite Ha. cbn [length Nat.eqb]. unfold Admin.create.
  replace (String.eqb (or_default (ADMIN_EMAIL env) "admin@gmail.com") "")
    with false
    by (symmetry; apply String.eqb_neq, or_default_nonempty; discriminate).
  replace (String.eqb (bcrypt_hashSync
                         (or_default (ADMIN_PASSWORD env) "admin123") 10) "")
    with false
    by (symmetry; now apply String.eqb_neq).
  cbn. rewrite Ha. reflexivity.
Qed.

(** X14. After the bootstrap has run on a store without administrators, a
    login with the configured or default email and password is answered
    with a token signed for the new administrator, provided the hash
    library verifies a password against its own hash. *)
Theorem bootstrap_then_login now s t :
  let email := or_default (ADMIN_EMAIL env) "admin@gmail.com" in
  let plain := or_default (ADMIN_PASSWORD env) "admin123" in
  admins s = [] ->
  bcrypt_hashSync plain 10 <> "" ->
  bcrypt_compareSync (JsString plain) (bcrypt_hashSync plain 10)
  = Ret true ->
  jwt_sign (next_id s) (JWT_SECRET env) "1d" now = Ret t ->
  exists s',
    seedAdmin env s = (Ret tt, s') /\
    post_login env now
      {| Login.email := email; Login.password := JsString plain |} s'
    = (res_json (JToken t), s').
Proof.
  intros email plain Ha Hne Hc Hs.
  eexists. split; [now apply seedAdmin_on_empty|].
  unfold post_login, try_catch, bind, Admin.findOne, gets, lift, ret, throw.
  cbn. fold email. rewrite String.eqb_refl.
  cbn. fold plain. rewrite Hc, Hs. reflexivity.
Qed.

(** X15. Behind the gate, creating an experience entry and then deleting
    it by the identifier it was given restores the collection; the same
    holds for a project, whose uploaded image nevertheless stays in the
    upload directory. *)
Theorem create_then_delete now1 now2 req1 req2 d1 d2 i w :
  session_passes env now1 req1 d1 ->
  session_passes env now2 req2 d2 ->
  castObjectId i = Some (next_id (db w)) ->
  (forall b,
      endpoint req1 = POST_experience b ->
      endpoint req2 = DELETE_experience i ->
      (forall x, In x (experiences (db w)) ->
                 ExperienceSchema._id x <> next_id (db w)) ->
      exists x,
        fst (serve env now1 req1 w) = res_json (JExperience (Some x)) /\
        ExperienceSchema._id x = next_id (db w) /\
        serve env now2 req2 (snd (serve env now1 req1 w))
        = (res_json (JMessage "Deleted"),
           {| db := set_next_id (S (next_id (db w))) (db w);
              uploads := uploads w |})) /\
  (forall b originalname,
      endpoint req1 = POST_projects b (Some originalname) ->
      endpoint req2 = DELETE_projects i ->
      (forall p, In p (projects (db w)) ->
                 ProjectSchema._id p <> next_id (db w)) ->
      exists p,
        fst (serve env now1 req1 w) = res_json (JProject (Some p)) /\
        ProjectSchema._id p = next_id (db w) /\
        ProjectSchema.image p = Some (stored_path now1 originalname) /\
        serve env now2 req2 (snd (serve env now1 req1 w))
        = (res_json (JMessage "Deleted"),
           {| db := set_next_id (S (next_id (db w))) (db w);
              uploads := stored_name now1 originalname :: uploads w |})).
Proof.
  intros Hp1 Hp2 Hc. split.
  - intros b He1 He2 Hn. eexists. split; [|split].
    + pass_gate Hp1 He1. unfold handler. cbn. reflexivity.
    + reflexivity.
    + pass_gate Hp1 He1. unfold handler. cbn [post_experience].
      unfold serve, apiRouter. rewrite He2. cbn [run_chain].
      rewrite (session_passes_next _ _ _ _ _ _ Hp2). cbn [run_chain].
      unfold handler. cbn.
      unfold delete_experience, try_catch, bind,
        Experience.findByIdAndDelete.
      rewrite Hc. cbn.
      rewrite remove_first_some; [cbn; now rewrite app_nil_r| |].
      * intros y Hy. apply Nat.eqb_neq. now apply Hn.
      * apply Nat.eqb_refl.
  - intros b originalname He1 He2 Hn. eexists. split; [|split; [|split]].
    + pass_gate Hp1 He1. unfold upload_single. cbn [run_chain].
      unfold handler. cbn. reflexivity.
    + reflexivity.
    + reflexivity.
    + pass_gate Hp1 He1. unfold upload_single. cbn [run_chain].
      unfold handler. cbn [post_projects].
      unfold serve, apiRouter. rewrite He2. cbn [run_chain].
      rewrite (session_passes_next _ _ _ _ _ _ Hp2). cbn [run_chain].
      unfold handler. cbn.
      unfold delete_projects, try_catch, bind, Project.findByIdAndDelete.
      rewrite Hc. cbn.
      rewrite remove_first_some; [cbn; now rewrite app_nil_r| |].
      * intros y Hy. apply Nat.eqb_neq. now apply Hn.
      * apply Nat.eqb_refl.
Qed.

(** X16. Behind the gate, a [PUT /about] that gives both a title and a
    text is what the next [GET /content] shows, whether an About record
    existed or not. *)
Theorem about_written_then_read now1 now2 req1 req2 d t x w :
  endpoint req1
  = PUT_about {| AboutSchema.body_title := Some t;
                 AboutSchema.body_text := Some x |} ->
  session_passes env now1 req1 d ->
  endpoint req2 = GET_content ->
  exists a ps xs ns,
    fst (serve env now2 req2 (snd (serve env now1 req1 w)))
    = res_json (JContent (inl a) ps xs ns) /\
    AboutSchema.title a = Some t /\ AboutSchema.text a = Some x.
Proof.
  intros He1 Hp He2.
  rewrite (serve_about_passes _ _ _ _ _ _ He1 Hp). cbn [snd].
  unfold serve, apiRouter. rewrite He2. cbn [run_chain]. unfold handler.
  cbn [db]. rewrite get_content_reads. cbn [fst].
  destruct (abouts (db w)) as [|d0 rest] eqn:Ha.
  - rewrite (put_about_first now1 _ (db w) Ha). cbn.
    do 4 eexists. repeat split.
  - rewrite (put_about_existing now1 _ _ _ _ Ha). cbn.
    do 4 eexists. repeat split.
Qed.

(** X17. Behind the gate, a project created later than every stored
    project heads the project list of the next [GET /content], ahead of the
    earlier listing. *)
Theorem new_project_listed_first now1 now2 req1 req2 d b image w :
  endpoint req1 = POST_projects b image ->
  session_passes env now1 req1 d ->
  endpoint req2 = GET_content ->
  (forall p, In p (projects (db w)) ->
             (ProjectSchema.createdAt p < now1)%Z) ->
  exists p about xs ns,
    fst (serve env now1 req1 w) = res_json (JProject (Some p)) /\
    fst (serve env now2 req2 (snd (serve env now1 req1 w)))
    = res_json
        (JContent about
           (p :: sort_desc ProjectSchema.createdAt (projects (db w)))
           xs ns).
Proof.
  intros He1 Hp He2 Hlt.
  assert (Hserve : exists u,
    serve env now1 req1 w
    = (fst (post_projects now1 b
              {| adminId := id d;
                 file := option_map (stored_name now1) image |} (db w)),
       {| db := snd (post_projects now1 b
                       {| adminId := id d;
                          file := option_map (stored_name now1) image |}
                       (db w));
          uploads := u |})).
  { pass_gate Hp He1. unfold upload_single.
    destruct image; cbn [run_chain]; unfold handler; cbn; eauto. }
  destruct Hserve as [u ->]. rewrite post_projects_creates. cbn [fst snd].
  do 4 eexists. split; [reflexivity|].
  unfold serve, apiRouter. rewrite He2. cbn [run_chain]. unfold handler.
  cbn [db]. rewrite get_content_reads. cbn [fst projects set_projects].
  rewrite (sort_desc_newest_last ProjectSchema.createdAt (projects (db w)));
    [reflexivity|].
  cbn. exact Hlt.
Qed.

Lemma post_contact_submit_undated (now : Z) b (s : Store) :
  SubmissionSchema.body_date b = None ->
  post_contact_submit now b s
  = (res_json (JMessage "Message sent successfully"),
     set_submissions
       (submissions s ++
        [{| SubmissionSchema._id := next_id s;
            SubmissionSchema.name := SubmissionSchema.body_name b;
            SubmissionSchema.email := SubmissionSchema.body_email b;
            SubmissionSchema.message := SubmissionSchema.body_message b;
            SubmissionSchema.date := now;
            SubmissionSchema.createdAt := now |}])
       (set_next_id (S (next_id s)) s)).
Proof.
  intros Hd.
  unfold post_contact_submit, Submission.create, try_catch, bind.
  rewrite Hd. reflexivity.
Qed.

(** X18. A message submitted without a date is stamped with the time of
    the request; when that is later than every stored submission's date, the
    message heads the next listing an administrator gets. *)
Theorem submitted_message_listed_first now1 now2 req1 req2 d b w :
  endpoint req1 = POST_contact_submit b ->
  SubmissionSchema.body_date b = None ->
  endpoint req2 = GET_contact_submissions ->
  session_passes env now2 req2 d ->
  (forall m, In m (submissions (db w)) ->
             (SubmissionSchema.date m < now1)%Z) ->
  exists m,
    fst (serve env now1 req1 w)
    = res_json (JMessage "Message sent successfully") /\
    SubmissionSchema.date m = now1 /\
    SubmissionSchema.name m = SubmissionSchema.body_name b /\
    SubmissionSchema.email m = SubmissionSchema.body_email b /\
    SubmissionSchema.message m = SubmissionSchema.body_message b /\
    fst (serve env now2 req2 (snd (serve env now1 req1 w)))
    = res_json
        (JSubmissions
           (m :: sort_desc SubmissionSchema.date (submissions (db w)))).
Proof.
  intros He1 Hd He2 Hp Hlt.
  assert (Hserve :
    serve env now1 req1 w
    = (fst (post_contact_submit now1 b (db w)),
       {| db := snd (post_contact_submit now1 b (db w));
          uploads := uploads w |})).
  { unfold serve, apiRouter. rewrite He1. cbn [run_chain]. unfold handler.
    now destruct (post_contact_submit now1 b (db w)). }
  rewrite Hserve, (post_contact_submit_undated now1 b (db w) Hd).
  cbn [fst snd].
  eexists. split; [reflexivity|].
  split; [|split; [|split; [|split]]]; cycle 4.
  - pass_gate Hp He2. unfold handler. cbn -[sort_desc].
    rewrite sort_desc_newest_last; [reflexivity|].
    cbn. exact Hlt.
  - reflexivity.
  - reflexivity.
  - reflexivity.
  - reflexivity.
Qed.
End Sequences.

(** * The further properties at work on the sample implementation *)

Module MoreRuns.
Import Sample.

Lemma session now e :
  (now < 5000)%Z ->
  @session_passes libraries env now (request e) {| id := Some 0 |}.
Proof.
  intros Hnow. exists "0.5000.s3cret". split; [reflexivity|].
  cbn. unfold verify. cbn.
  destruct (Z.leb_spec 5000 now); [lia | reflexivity].
Qed.

Lemma content_lists_newest_first_witness :
  exists about ps xs,
    run 10 (anonymous GET_content) varied
    = (res_json (JContent about ps xs ["Cobol"]), varied) /\
    (exists a,
        about = inl a /\
        AboutSchema._id a = 0 /\
        AboutSchema.createdAt a = 3%Z /\
        AboutSchema.title a = Some "About Me" /\
        AboutSchema.text a = Some "x") /\
    Permutation ps [project0; project1] /\
    newest_first ProjectSchema.createdAt ps /\
    Permutation xs [experience0; experience1] /\
    newest_first ExperienceSchema.createdAt xs.
Proof.
  apply (@content_lists_newest_first libraries env 10
           (anonymous GET_content) varied eq_refl).
Defined.

(** The listing of that store puts the later project and the later
    experience entry first. *)
Lemma content_of_varied_store :
  fst (run 10 (anonymous GET_content) varied)
  = res_json (JContent (inl (About.hydrate untitled))
                       [project1; project0] [experience1; experience0]
                       ["Cobol"]).
Proof. reflexivity. Qed.

Lemma submissions_listed_newest_first_witness :
  exists l,
    run 10 (request GET_contact_submissions) populated
    = (res_json (JSubmissions l), populated) /\
    Permutation l [message0] /\
    newest_first SubmissionSchema.date l.
Proof.
  apply (@submissions_listed_newest_first libraries env 10
           (request GET_contact_submissions) {| id := Some 0 |} populated
           eq_refl (session 10 _ eq_refl)).
Defined.

Lemma public_routes_ignore_header_witness :
  run 10 {| authorization := Some "Bearer junk";
            endpoint := POST_contact_submit (submission_body "Bo" "Hi") |}
      populated
  = run 10 (anonymous (POST_contact_submit (submission_body "Bo" "Hi")))
        populated.
Proof.
  apply (@public_routes_ignore_header libraries env 10
           (Some "Bearer junk") None
           (POST_contact_submit (submission_body "Bo" "Hi")) populated
           eq_refl).
Defined.

Lemma reading_routes_write_nothing_witness :
  snd (run 10 (anonymous (POST_login {| Login.email := "admin@gmail.com";
                                        Login.password := JsString "hunter2" |}))
           populated) = populated.
Proof.
  apply (@reading_routes_write_nothing libraries env 10
           (anonymous (POST_login {| Login.email := "admin@gmail.com";
                                     Login.password := JsString "hunter2" |}))
           populated eq_refl).
Defined.


Lemma routes_write_own_collection_witness :
  abouts (db (snd (run 10 (request (DELETE_projects "0")) populated)))
  = [about0] /\
  skills (db (snd (run 10 (request (DELETE_projects "0")) populated)))
  = [skill0] /\
  experiences (db (snd (run 10 (request (DELETE_projects "0")) populated)))
  = [experience0] /\
  submissions (db (snd (run 10 (request (DELETE_projects "0")) populated)))
  = [message0] /\
  projects (db (snd (run 10 (request (PUT_skills ["Go"])) populated)))
  = [project0] /\
  uploads (snd (run 10 (request (PUT_skills ["Go"])) populated))
  = ["7-old.png"].
Proof.
  destruct (@routes_write_own_collection libraries env 10
              (request (DELETE_projects "0")) populated)
    as (Ha & Hk & _ & Hx & Hm).
  destruct (@routes_write_own_collection libraries env 10
              (request (PUT_skills ["Go"])) populated)
    as (_ & _ & Hp & _).
  split; [exact (Ha eq_refl)|]. split; [exact (Hk eq_refl)|].
  split; [exact (Hx eq_refl)|]. split; [exact (Hm eq_refl)|].
  exact (Hp eq_refl).
Defined.

Lemma uploads_only_grow_witness :
  uploads (snd (run 10 (request (PUT_projects "42" (project_body "New" None)
                                               (Some "new.png")))
                    populated))
  = ["10-new.png"; "7-old.png"].
Proof.
  apply (proj1 (@uploads_only_grow libraries env 10
                  (request (PUT_projects "42" (project_body "New" None)
                                         (Some "new.png"))) populated)
           "new.png" {| id := Some 0 |} eq_refl (session 10 _ eq_refl)).
Defined.

Lemma replace_skills_repeated_name_witness :
  exists e w',
    run 10 (request (PUT_skills ["Go"; "Rust"; "Go"; "C"])) populated
    = (res_status_json 500 (JError "Skills update error" e), w') /\
    map SkillSchema.name (skills (db w')) = ["Go"; "Rust"].
Proof.
  apply (@replace_skills_repeated_name libraries env 10
           (request (PUT_skills ["Go"; "Rust"; "Go"; "C"]))
           {| id := Some 0 |} populated ["Go"; "Rust"] "Go" ["C"] eq_refl
           (session 10 _ eq_refl)).
  - repeat constructor; cbn; intuition discriminate.
  - now left.
Defined.

Lemma delete_removes_the_record_witness :
  run 10 (request (DELETE_projects "0")) populated
  = (res_json (JMessage "Deleted"),
     {| db := set_projects [] (db populated);
        uploads := ["7-old.png"] |}) /\
  run 10 (request (DELETE_experience "3")) populated
  = (res_json (JMessage "Deleted"),
     {| db := set_experiences [] (db populated);
        uploads := ["7-old.png"] |}).
Proof.
  split.
  - apply (proj1 (@delete_removes_the_record libraries env 10
                    (request (DELETE_projects "0"))
                    {| id := Some 0 |} "0" 0 populated
                    (session 10 _ eq_refl) eq_refl)
             [] project0 [] eq_refl eq_refl
             (fun p (F : In p []) => match F with end) eq_refl).
  - apply (proj2 (@delete_removes_the_record libraries env 10
                    (request (DELETE_experience "3"))
                    {| id := Some 0 |} "3" 3 populated
                    (session 10 _ eq_refl) eq_refl)
             [] experience0 [] eq_refl eq_refl
             (fun x (F : In x []) => match F with end) eq_refl).
Defined.

Lemma update_experience_patches_witness :
  exists x,
    run 10 (request (PUT_experience "3" (experience_body "Lead"))) populated
    = (res_json (JExperience (Some x)),
       {| db := set_experiences [x] (db populated);
          uploads := ["7-old.png"] |}) /\
    ExperienceSchema.role x = Some "Lead" /\
    ExperienceSchema.company x = Some "Acme" /\
    ExperienceSchema.duration x = None /\
    ExperienceSchema.description x = Some "Backend" /\
    ExperienceSchema._id x = 3 /\
    ExperienceSchema.createdAt x = 5%Z.
Proof.
  apply (@update_experience_patches libraries env 10
           (request (PUT_experience "3" (experience_body "Lead")))
           {| id := Some 0 |} "3" 3 (experience_body "Lead") [] experience0 [] populated
           (session 10 _ eq_refl) eq_refl eq_refl eq_refl
           (fun x (F : In x []) => match F with end) eq_refl).
Defined.

Lemma gate_reads_one_word_witness :
  @authenticate libraries env 10
    {| authorization := Some "Bearer 0.5000.s3cret and more";
       endpoint := GET_contact_submissions |} ctx0 populated
  = @authenticate libraries env 10
      {| authorization := Some "Bearer 0.5000.s3cret";
         endpoint := GET_contact_submissions |} ctx0 populated.
Proof.
  apply (proj1 (@gate_reads_one_word libraries env 10
                  GET_contact_submissions "0.5000.s3cret" "and more"
                  ctx0 populated eq_refl)).
Defined.

Lemma bootstrap_then_login_witness :
  exists s',
    @seedAdmin libraries env empty_store = (Ret tt, s') /\
    @post_login libraries env 10
      {| Login.email := "admin@gmail.com"; Login.password := JsString "hunter2" |} s'
    = (res_json (JToken "0.86400010.s3cret"), s').
Proof.
  apply (@bootstrap_then_login libraries env 10 empty_store
           "0.86400010.s3cret"); try reflexivity.
  discriminate.
Defined.

Lemma create_then_delete_witness :
  exists x,
    fst (run 10 (request (POST_experience (experience_body "Dev")))
             populated)
    = res_json (JExperience (Some x)) /\
    ExperienceSchema._id x = 5 /\
    run 20 (request (DELETE_experience "5"))
        (snd (run 10 (request (POST_experience (experience_body "Dev")))
                  populated))
    = (res_json (JMessage "Deleted"),
       {| db := set_next_id 6 (db populated); uploads := ["7-old.png"] |}).
Proof.
  apply (proj1 (@create_then_delete libraries env 10 20
                  (request (POST_experience (experience_body "Dev")))
                  (request (DELETE_experience "5"))
                  {| id := Some 0 |} {| id := Some 0 |} "5" populated
                  (session 10 _ eq_refl) (session 20 _ eq_refl) eq_refl)
           (experience_body "Dev") eq_refl eq_refl).
  intros x [<- | []]. discriminate.
Defined.

Lemma about_written_then_read_witness :
  exists a ps xs ns,
    fst (run 20 (anonymous GET_content)
             (snd (run 10 (request (PUT_about (about_body "Me" "Hi")))
                       populated)))
    = res_json (JContent (inl a) ps xs ns) /\
    AboutSchema.title a = Some "Me" /\ AboutSchema.text a = Some "Hi".
Proof.
  apply (@about_written_then_read libraries env 10 20
           (request (PUT_about (about_body "Me" "Hi")))
           (anonymous GET_content) {| id := Some 0 |} "Me" "Hi" populated eq_refl
           (session 10 _ eq_refl) eq_refl).
Defined.

Lemma new_project_listed_first_witness :
  exists p about xs ns,
    fst (run 10 (request (POST_projects (project_body "Site" None) None))
             populated)
    = res_json (JProject (Some p)) /\
    fst (run 20 (anonymous GET_content)
             (snd (run 10 (request (POST_projects (project_body "Site" None)
                                                  None)) populated)))
    = res_json (JContent about [p; project0] xs ns).
Proof.
  apply (@new_project_listed_first libraries env 10 20
           (request (POST_projects (project_body "Site" None) None))
           (anonymous GET_content) {| id := Some 0 |} (project_body "Site" None) None populated
           eq_refl (session 10 _ eq_refl) eq_refl).
  intros p [<- | []]. reflexivity.
Defined.

Lemma submitted_message_listed_first_witness :
  exists m,
    fst (run 10 (anonymous (POST_contact_submit (submission_body "Bo" "Hi")))
             populated)
    = res_json (JMessage "Message sent successfully") /\
    SubmissionSchema.date m = 10%Z /\
    SubmissionSchema.name m = Some "Bo" /\
    SubmissionSchema.email m = None /\
    SubmissionSchema.message m = Some "Hi" /\
    fst (run 20 (request GET_contact_submissions)
             (snd (run 10 (anonymous (POST_contact_submit
                                        (submission_body "Bo" "Hi")))
                       populated)))
    = res_json (JSubmissions [m; message0]).
Proof.
  apply (@submitted_message_listed_first libraries env 10 20
           (anonymous (POST_contact_submit (submission_body "Bo" "Hi")))
           (request GET_contact_submissions) {| id := Some 0 |} (submission_body "Bo" "Hi") populated
           eq_refl eq_refl eq_refl (session 20 _ eq_refl)).
  intros m [<- | []]. reflexivity.
Defined.
End MoreRuns.
